(** * InsightTrack: the Express server of [server.js]

    A shallow embedding of the request pipeline, the rate limiter, the
    terminal error handler and the start-up script of [src/server.js],
    with the properties the specification states about them.

    [server.js] is a composition of library middleware.  The application
    code proper (the order of the [app.use] calls, the options object of
    the limiter, the error handler, the start-up statements) is
    transcribed from the file.  What the libraries do when the file calls
    them is written out from their documented behaviour, each library in
    a module of its own:

    - Express 4: layers, mount points, [next] and [next(err)], the
      default final handler;
    - body-parser 1 behind [express.json] and [express.urlencoded];
    - cors 2 and morgan 1 with their defaults;
    - express-rate-limit with its memory store, as in the releases whose
      store is emptied by an interval timer (up to 6);
    - mongoose with the callback form of [connect] (5 and 6), which the
      options [useNewUrlParser] and [useUnifiedTopology] belong to;
    - dotenv.

    The header set of [helmet()] depends on the release installed and is a
    parameter.  The two routers [./routes/customers] and
    [./routes/analytics] are not part of the file: they are parameters
    too, and every statement holds for all of them. *)

From Stdlib Require Import Ascii String ZArith Lia.
From stdpp Require Import base option list gmap strings pretty.

Local Open Scope string_scope.
Set Warnings "-register-all".

(** ** Text helpers (the JavaScript [String] methods the libraries use) *)

Module Text.

Definition lowerChar (c : ascii) : ascii :=
  let n := nat_of_ascii c in
  if (65 <=? n)%nat && (n <=? 90)%nat then ascii_of_nat (n + 32) else c.

Definition upperChar (c : ascii) : ascii :=
  let n := nat_of_ascii c in
  if (97 <=? n)%nat && (n <=? 122)%nat then ascii_of_nat (n - 32) else c.

Fixpoint mapChars (f : ascii -> ascii) (s : string) : string :=
  match s with
  | EmptyString => EmptyString
  | String c r => String (f c) (mapChars f r)
  end.

Definition toLowerCase : string -> string := mapChars lowerChar.
Definition toUpperCase : string -> string := mapChars upperChar.

(** [s.startsWith(p)] *)
Definition startsWith (p s : string) : bool := String.prefix p s.

(** [s.slice(n)] *)
Fixpoint slice (n : nat) (s : string) : string :=
  match n, s with
  | S n', String _ r => slice n' r
  | _, _ => s
  end.

Definition isBlank (c : ascii) : bool :=
  let n := nat_of_ascii c in
  (n =? 32)%nat || (n =? 9)%nat || (n =? 10)%nat || (n =? 13)%nat.

Fixpoint trimStart (s : string) : string :=
  match s with
  | String c r => if isBlank c then trimStart r else s
  | EmptyString => EmptyString
  end.

Fixpoint trimEnd (s : string) : string :=
  match s with
  | EmptyString => EmptyString
  | String c r =>
      match trimEnd r with
      | EmptyString => if isBlank c then EmptyString else String c EmptyString
      | r' => String c r'
      end
  end.

Definition trim (s : string) : string := trimEnd (trimStart s).

(** the part of [s] before the first [stop] (all of [s] when there is none) *)
Fixpoint before (stop : ascii) (s : string) : string :=
  match s with
  | EmptyString => EmptyString
  | String c r => if Ascii.eqb c stop then EmptyString else String c (before stop r)
  end.

(** the part of [s] after the first [stop], when there is one *)
Fixpoint after (stop : ascii) (s : string) : option string :=
  match s with
  | EmptyString => None
  | String c r => if Ascii.eqb c stop then Some r else after stop r
  end.

(** [s.split(sep)] for a one-character separator *)
Fixpoint split (sep : ascii) (s : string) : list string :=
  match s with
  | EmptyString => [EmptyString]
  | String c r =>
      if Ascii.eqb c sep then EmptyString :: split sep r
      else match split sep r with
           | w :: ws => String c w :: ws
           | [] => [String c EmptyString]
           end
  end.

Fixpoint join (sep : string) (l : list string) : string :=
  match l with
  | [] => EmptyString
  | [x] => x
  | x :: r => x ++ sep ++ join sep r
  end.

(** The double quote character, and a way to write texts that contain
    it: [js] turns every apostrophe of its argument into a double quote. *)
Definition DQUOTE : ascii := "034"%char.
Definition APOSTROPHE : ascii := "039"%char.

Definition js (s : string) : string :=
  mapChars (fun c => if Ascii.eqb c APOSTROPHE then DQUOTE else c) s.

End Text.

(** ** JSON values, [JSON.stringify] and [JSON.parse]

    Texts are byte strings (UTF-8).  What is kept of a text is its
    syntax: a number is the token that denotes it (its IEEE-754 value is
    not computed), an object is the list of its members in source order
    (the object [JSON.parse] builds from them keeps the last member of a
    name).  The statements below use no more of [parse] than whether the
    text is JSON. *)

Module Json.
Import Text.

Inductive JSON : Type :=
| JNull
| JBool (b : bool)
| JNumber (token : string)
| JString (s : string)
| JArray (items : list JSON)
| JObject (members : list (string * JSON)).

(** *** Serialisation *)

Definition hexDigit (n : N) : ascii :=
  if (n <? 10)%N then ascii_of_N (48 + n) else ascii_of_N (87 + n).

Definition hex4 (n : N) : string :=
  String (hexDigit (n / 4096 mod 16)) (String (hexDigit (n / 256 mod 16))
    (String (hexDigit (n / 16 mod 16)) (String (hexDigit (n mod 16)) EmptyString))).

(** [QuoteJSONString]: the two-character escapes, [\u00xx] for the other
    control characters, everything else as it is. *)
Definition quoteChar (c : ascii) : string :=
  let n := N_of_ascii c in
  if (n =? 34)%N then String "\" (String DQUOTE EmptyString)
  else if (n =? 92)%N then "\\"
  else if (n =? 8)%N then "\b"
  else if (n =? 9)%N then "\t"
  else if (n =? 10)%N then "\n"
  else if (n =? 12)%N then "\f"
  else if (n =? 13)%N then "\r"
  else if (n <? 32)%N then "\u" ++ hex4 n
  else String c EmptyString.

Fixpoint quoteChars (s : string) : string :=
  match s with
  | EmptyString => EmptyString
  | String c r => quoteChar c ++ quoteChars r
  end.

Definition quote (s : string) : string :=
  String DQUOTE (quoteChars s ++ String DQUOTE EmptyString).

Fixpoint stringify (v : JSON) : string :=
  match v with
  | JNull => "null"
  | JBool true => "true"
  | JBool false => "false"
  | JNumber t => t
  | JString s => quote s
  | JArray items => "[" ++ join "," (List.map stringify items) ++ "]"
  | JObject ms =>
      "{" ++ join "," (List.map (fun kv => match kv with
                                           | (k, x) => quote k ++ ":" ++ stringify x
                                           end) ms) ++ "}"
  end.

(** *** Parsing (the JSON grammar of ECMA-404) *)

Definition isDigit (c : ascii) : bool :=
  let n := N_of_ascii c in (48 <=? n)%N && (n <=? 57)%N.

Fixpoint skipWs (s : string) : string :=
  match s with
  | String c r => if isBlank c then skipWs r else s
  | EmptyString => EmptyString
  end.

Fixpoint digits (s : string) : string * string :=
  match s with
  | String c r =>
      if isDigit c then let '(d, rest) := digits r in (String c d, rest)
      else (EmptyString, s)
  | EmptyString => (EmptyString, EmptyString)
  end.

Definition someDigits (s : string) : option (string * string) :=
  match digits s with
  | (EmptyString, _) => None
  | p => Some p
  end.

(** a number token: an optional minus sign; [0] or a digit sequence not
    starting with [0]; an optional fraction, a dot and digits; an optional
    exponent, [e] or [E], an optional sign and digits *)
Definition number (s : string) : option (string * string) :=
  let '(sign, s1) := match s with
                     | String "-" r => ("-", r)
                     | _ => (EmptyString, s)
                     end in
  '(int, s2) ← match s1 with
               | String "0" r => Some ("0", r)
               | _ => someDigits s1
               end;
  '(frac, s3) ← match s2 with
                | String "." r => '(d, rest) ← someDigits r; Some ("." ++ d, rest)
                | _ => Some (EmptyString, s2)
                end;
  '(exp, s4) ← match s3 with
               | String e r =>
                   if Ascii.eqb e "e" || Ascii.eqb e "E" then
                     let '(sg, r1) := match r with
                                      | String "+" t => ("+", t)
                                      | String "-" t => ("-", t)
                                      | _ => (EmptyString, r)
                                      end in
                     '(d, rest) ← someDigits r1; Some (String e (sg ++ d), rest)
                   else Some (EmptyString, s3)
               | EmptyString => Some (EmptyString, s3)
               end;
  Some (sign ++ int ++ frac ++ exp, s4).

(** A string token is read into pieces: bytes taken as they are and
    UTF-16 code units written as [\uXXXX]; [encode] turns the pieces into
    UTF-8, joining a surrogate pair into one code point. *)
Inductive Piece : Type := Byte (c : ascii) | Unit16 (u : N).

Definition hexVal (c : ascii) : option N :=
  let n := N_of_ascii c in
  if (48 <=? n)%N && (n <=? 57)%N then Some (n - 48)%N
  else if (97 <=? n)%N && (n <=? 102)%N then Some (n - 87)%N
  else if (65 <=? n)%N && (n <=? 70)%N then Some (n - 55)%N
  else None.

Definition simpleEscape (e : ascii) : option ascii :=
  if Ascii.eqb e DQUOTE then Some DQUOTE
  else if Ascii.eqb e "\" then Some "\"%char
  else if Ascii.eqb e "/" then Some "/"%char
  else if Ascii.eqb e "b" then Some "008"%char
  else if Ascii.eqb e "f" then Some "012"%char
  else if Ascii.eqb e "n" then Some "010"%char
  else if Ascii.eqb e "r" then Some "013"%char
  else if Ascii.eqb e "t" then Some "009"%char
  else None.

(** the characters after the opening quote, up to the closing one *)
Fixpoint stringBody (s : string) : option (list Piece * string) :=
  match s with
  | EmptyString => None
  | String c r =>
      if Ascii.eqb c DQUOTE then Some ([], r)
      else if (N_of_ascii c <? 32)%N then None
      else if Ascii.eqb c "\" then
        match r with
        | String e r1 =>
            if Ascii.eqb e "u" then
              match r1 with
              | String h1 (String h2 (String h3 (String h4 r2))) =>
                  match hexVal h1, hexVal h2, hexVal h3, hexVal h4, stringBody r2 with
                  | Some a, Some b, Some c', Some d, Some (ps, rest) =>
                      Some (Unit16 (a * 4096 + b * 256 + c' * 16 + d)%N :: ps, rest)
                  | _, _, _, _, _ => None
                  end
              | _ => None
              end
            else
              match simpleEscape e, stringBody r1 with
              | Some x, Some (ps, rest) => Some (Byte x :: ps, rest)
              | _, _ => None
              end
        | EmptyString => None
        end
      else
        match stringBody r with
        | Some (ps, rest) => Some (Byte c :: ps, rest)
        | None => None
        end
  end.

Definition bytes (l : list N) : string :=
  fold_right (fun n s => String (ascii_of_N n) s) EmptyString l.

Definition utf8 (cp : N) : string :=
  (if cp <? 128 then bytes [cp]
   else if cp <? 2048 then bytes [192 + cp / 64; 128 + cp mod 64]
   else if cp <? 65536 then
     bytes [224 + cp / 4096; 128 + (cp / 64) mod 64; 128 + cp mod 64]
   else bytes [240 + cp / 262144; 128 + (cp / 4096) mod 64;
               128 + (cp / 64) mod 64; 128 + cp mod 64])%N.

Definition isHigh (u : N) : bool := (55296 <=? u)%N && (u <=? 56319)%N.
Definition isLow (u : N) : bool := (56320 <=? u)%N && (u <=? 57343)%N.

Fixpoint encode (ps : list Piece) : string :=
  match ps with
  | [] => EmptyString
  | Byte c :: r => String c (encode r)
  | Unit16 hi :: r =>
      match r with
      | Unit16 lo :: r' =>
          if isHigh hi && isLow lo
          then utf8 (65536 + (hi - 55296) * 1024 + (lo - 56320))%N ++ encode r'
          else utf8 hi ++ encode r
      | _ => utf8 hi ++ encode r
      end
  end.

Definition literal (s : string) : option (JSON * string) :=
  if startsWith "true" s then Some (JBool true, slice 4 s)
  else if startsWith "false" s then Some (JBool false, slice 5 s)
  else if startsWith "null" s then Some (JNull, slice 4 s)
  else None.

(** Recursive descent.  [fuel] bounds the depth of the calls; every
    second call at least consumes a character, see [parse]. *)
Fixpoint value (fuel : nat) (s : string) : option (JSON * string) :=
  match fuel with
  | O => None
  | S fuel =>
      match skipWs s with
      | EmptyString => None
      | String c r =>
          if Ascii.eqb c "{" then
            match skipWs r with
            | String "}" r' => Some (JObject [], r')
            | _ => members fuel r []
            end
          else if Ascii.eqb c "[" then
            match skipWs r with
            | String "]" r' => Some (JArray [], r')
            | _ => elements fuel r []
            end
          else if Ascii.eqb c DQUOTE then
            '(ps, rest) ← stringBody r; Some (JString (encode ps), rest)
          else if Ascii.eqb c "-" || isDigit c then
            '(t, rest) ← number (String c r); Some (JNumber t, rest)
          else literal (String c r)
      end
  end
with elements (fuel : nat) (s : string) (acc : list JSON) : option (JSON * string) :=
  match fuel with
  | O => None
  | S fuel =>
      '(v, r) ← value fuel s;
      match skipWs r with
      | String "," r' => elements fuel r' (v :: acc)
      | String "]" r' => Some (JArray (rev (v :: acc)), r')
      | _ => None
      end
  end
with members (fuel : nat) (s : string) (acc : list (string * JSON))
  : option (JSON * string) :=
  match fuel with
  | O => None
  | S fuel =>
      match skipWs s with
      | String q r =>
          if Ascii.eqb q DQUOTE then
            '(ps, r1) ← stringBody r;
            match skipWs r1 with
            | String ":" r2 =>
                '(v, r3) ← value fuel r2;
                match skipWs r3 with
                | String "," r4 => members fuel r4 ((encode ps, v) :: acc)
                | String "}" r4 => Some (JObject (rev ((encode ps, v) :: acc)), r4)
                | _ => None
                end
            | _ => None
            end
          else None
      | EmptyString => None
      end
  end.

(** [JSON.parse text]: one value, blanks around it, nothing else.
    [None] stands for the [SyntaxError] it throws. *)
Definition parse (s : string) : option JSON :=
  match value (2 * String.length s + 3) s with
  | Some (v, r) => match skipWs r with
                   | EmptyString => Some v
                   | _ => None
                   end
  | None => None
  end.

End Json.

(** ** Requests, responses and the outcome of a stage *)

Module Http.
Import Text Json.

(** An inbound request as Node hands it to Express.  Header names are in
    lower case, as Node delivers them.  [entity] holds the bytes of the
    body as they are received, before any content coding is undone;
    [ip] is [req.ip]. *)
Record Request : Type := mkRequest {
  method : string;
  target : string;
  headers : gmap string string;
  entity : string;
  ip : string
}.

(** What [res.send] or the default handler put in the response.  For a
    HEAD request Node transmits the headers of this representation only. *)
Inductive Payload : Type :=
| NoPayload
| Content (text : string)
| NotFoundPage (verb pathname : string)
| ErrorPage (text : string).

Record Response : Type := mkResponse {
  statusCode : nat;
  resHeaders : gmap string string;
  payload : Payload
}.

(** [req.body], as the text of the body gives it: for JSON, the value
    in the order and the notation of the text (see [JSON]); for a form,
    the pairs in the order of the text. *)
Inductive Parsed : Type :=
| Unparsed
| ParsedJson (v : JSON)
| ParsedForm (pairs : list (string * string)).

(** [req.rateLimit] *)
Record RateInfo : Type := mkRateInfo {
  limit : nat;
  current : nat;
  remaining : nat
}.

(** The request context: the request, the fields of [req] that stages
    assign, the response under construction, and whether the access
    logger has subscribed to the end of the response. *)
Record Ctx : Type := mkCtx {
  req : Request;
  url : string;
  baseUrl : string;
  body : Parsed;
  bodyRead : bool;
  rateLimit : option RateInfo;
  res : Response;
  logOnFinish : bool
}.

(** An [Error] object: [status] as http-errors sets it, and the stack. *)
Record Error : Type := mkError {
  status : option nat;
  kind : string;
  stack : string
}.

(** A stage calls [next()], calls [next(err)] (or throws), or ends the
    response.  [Raise] is a failure before anything was written to the
    client. *)
Inductive Outcome : Type :=
| Next (c : Ctx)
| Raise (e : Error) (c : Ctx)
| Sent (c : Ctx).

Definition ctxOf (o : Outcome) : Ctx :=
  match o with Next c | Raise _ c | Sent c => c end.

Definition withRes (c : Ctx) (r : Response) : Ctx :=
  mkCtx (req c) (url c) (baseUrl c) (body c) (bodyRead c) (rateLimit c) r (logOnFinish c).

Definition withBody (c : Ctx) (b : Parsed) (read : bool) : Ctx :=
  mkCtx (req c) (url c) (baseUrl c) b read (rateLimit c) (res c) (logOnFinish c).

Definition withUrl (c : Ctx) (u base : string) : Ctx :=
  mkCtx (req c) u base (body c) (bodyRead c) (rateLimit c) (res c) (logOnFinish c).

Definition withRateLimit (c : Ctx) (i : RateInfo) : Ctx :=
  mkCtx (req c) (url c) (baseUrl c) (body c) (bodyRead c) (Some i) (res c) (logOnFinish c).

Definition withLogOnFinish (c : Ctx) : Ctx :=
  mkCtx (req c) (url c) (baseUrl c) (body c) (bodyRead c) (rateLimit c) (res c) true.

(** [req.get(name)] *)
Definition get (r : Request) (name : string) : option string :=
  headers r !! toLowerCase name.

(** [res.setHeader], [res.removeHeader], [res.getHeader] *)
Definition setHeader (name value : string) (r : Response) : Response :=
  mkResponse (statusCode r) (<[toLowerCase name := value]> (resHeaders r)) (payload r).

Definition removeHeader (name : string) (r : Response) : Response :=
  mkResponse (statusCode r) (delete (toLowerCase name) (resHeaders r)) (payload r).

Definition getHeader (name : string) (r : Response) : option string :=
  resHeaders r !! toLowerCase name.

(** [res.status(code)] *)
Definition setStatus (code : nat) (r : Response) : Response :=
  mkResponse code (resHeaders r) (payload r).

Definition setPayload (p : Payload) (r : Response) : Response :=
  mkResponse (statusCode r) (resHeaders r) p.

(** A Content-Type is set by [res.send] only when none is there yet. *)
Definition defaultType (t : string) (r : Response) : Response :=
  match getHeader "Content-Type" r with
  | Some _ => r
  | None => setHeader "Content-Type" t r
  end.

(** [res.send(text)] for a string.  The entity tag Express adds is a
    digest of the text and is not tracked. *)
Definition sendText (text : string) (r : Response) : Response :=
  setPayload (Content text)
    (setHeader "Content-Length" (pretty (String.length text))
       (defaultType "text/html; charset=utf-8" r)).

(** [res.send(object)], that is [res.json(object)] *)
Definition sendJson (v : JSON) (r : Response) : Response :=
  sendText (stringify v) (defaultType "application/json; charset=utf-8" r).

(** Console output, and the line morgan writes when a response ends
    (of the [common] format: client, method, URL and status). *)
Inductive LogLine : Type :=
| Out (line : string)
| Err (line : string)
| Access (client verb original : string) (code : nat).

(** Process-wide state a request can touch: the hit counters of the
    limiter's memory store, the console, and the state [DB] the routers
    work on. *)
Record World (DB : Type) : Type := mkWorld {
  hits : gmap string nat;
  console : list LogLine;
  db : DB
}.
Arguments mkWorld {DB} _ _ _.
Arguments hits {DB} _.
Arguments console {DB} _.
Arguments db {DB} _.

Definition withHits {DB} (w : World DB) (h : gmap string nat) : World DB :=
  mkWorld h (console w) (db w).

Definition log {DB} (l : LogLine) (w : World DB) : World DB :=
  mkWorld (hits w) (console w ++ [l]) (db w).

Definition withDb {DB} (w : World DB) (d : DB) : World DB :=
  mkWorld (hits w) (console w) d.

(** zlib and iconv-lite, through which body-parser reads a body.  They
    are not part of the server and are taken as given.  Texts are held
    in UTF-8.

    [inflate coding limit bytes] is reading a [gzip] or [deflate] body
    through zlib under the limit: the inflated bytes, or the error
    raw-body ends with when the stream is corrupt or grows over the limit.
    [encodingExists] is iconv-lite's; [decode charset bytes] is its
    decoder, which strips a byte order mark. *)
Class Codec : Type := mkCodec {
  inflate : string -> N -> string -> Error + string;
  encodingExists : string -> bool;
  decode : string -> string -> string
}.

End Http.

(** ** Express: layers, mounting, dispatch and the default final handler *)

Module Express.
Import Text Http.

(** How a stage left: [next()], [next(err)] or a response. *)
Inductive Step : Type := Passed | Failed | Responded.

Section Router.
Context {DB Name : Type}.

(** A function of three parameters is a request handler, one of four
    parameters an error handler: Express tells them apart by
    [fn.length]. *)
Inductive Handler : Type :=
| Middleware (f : Ctx -> World DB -> World DB * Outcome)
| ErrorMiddleware (f : Error -> Ctx -> World DB -> World DB * Outcome).

(** a handler that touches nothing but the request context *)
Definition stateless (f : Ctx -> Outcome) : Handler :=
  Middleware (fun c w => (w, f c)).

(** a handler that works on the routers' state *)
Definition stateful (f : Ctx -> DB -> DB * Outcome) : Handler :=
  Middleware (fun c w => let '(d, o) := f c (db w) in (withDb w d, o)).

(** [app.use(mount, fn)]; [app.use(fn)] mounts at ["/"]. *)
Record Layer : Type := mkLayer {
  name : Name;
  mount : string;
  handler : Handler
}.

(** What handling one request leaves behind: the response sent, the
    state of the process, and the stages run, in order. *)
Record Result : Type := mkResult {
  response : Response;
  final : World DB;
  trace : list (Name * Step)
}.

Definition visit (n : Name) (s : Step) (r : Result) : Result :=
  mkResult (response r) (final r) ((n, s) :: trace r).

(** The path of a request target, as parseurl reads it from a plain
    target: what precedes the query.  A target is plain when it is in
    origin form (it starts with a slash) and holds no number sign, blank
    or no-break space; parseurl hands any other target to Node's
    [url.parse], which is not followed here: what is stated about the
    path of a request is stated for plain targets. *)
Definition isPlainChar (c : ascii) : bool :=
  negb (existsb (N.eqb (N_of_ascii c)) [9; 10; 12; 13; 32; 35; 160]%N).

Fixpoint allChars (f : ascii -> bool) (s : string) : bool :=
  match s with
  | EmptyString => true
  | String c r => f c && allChars f r
  end.

Definition plainTarget (u : string) : bool :=
  match u with
  | String "/" r => allChars isPlainChar r
  | _ => false
  end.

Definition pathname (u : string) : string := before "?" u.

(** Matching the path against a mount point, as the expression
    path-to-regexp builds for a non-strict, case-insensitive prefix:
    the mount point, an optional slash, then a slash or the end.  The
    result is the part of the path that is matched, to be removed from
    [req.url] while the layer runs. *)
Definition matchMount (mnt path : string) : option string :=
  if String.eqb mnt "/" then Some EmptyString
  else if startsWith (toLowerCase mnt) (toLowerCase path) then
    let n := String.length mnt in
    match slice n path with
    | EmptyString => Some (substring 0 n path)
    | String "/" EmptyString => Some (substring 0 (S n) path)
    | String "/" (String "/" _) => Some (substring 0 (S n) path)
    | String "/" _ => Some (substring 0 n path)
    | _ => None
    end
  else None.

Definition dropLastSlash (s : string) : string :=
  match String.get (String.length s - 1) s with
  | Some "/"%char => substring 0 (String.length s - 1) s
  | _ => s
  end.

(** [trim_prefix]: the matched part leaves [req.url] and joins
    [req.baseUrl]; a slash is put in front of what is left when it
    has none. *)
Definition enter (removed : string) (c : Ctx) : Ctx * bool :=
  match removed with
  | EmptyString => (c, false)
  | _ =>
      let rest := slice (String.length removed) (url c) in
      let base := baseUrl c ++ dropLastSlash removed in
      match rest with
      | String "/" _ => (withUrl c rest base, false)
      | _ => (withUrl c (String "/" rest) base, true)
      end
  end.

(** the start of [next]: [req.url] and [req.baseUrl] are put back *)
Definition leave (removed parent : string) (slashAdded : bool) (c : Ctx) : Ctx :=
  match removed with
  | EmptyString => c
  | _ => withUrl c (removed ++ (if slashAdded then slice 1 (url c) else url c)) parent
  end.

(** The end of a response: morgan, when it has subscribed, writes its
    line with the status that was sent. *)
Definition finish (c : Ctx) (w : World DB) : Result :=
  mkResult (res c)
    (if logOnFinish c
     then log (Access (ip (req c)) (method (req c)) (target (req c))
                 (statusCode (res c))) w
     else w)
    [].

(** finalhandler's [send]: the status, no content-coding headers, two
    headers of its own, an HTML document.  The Content-Length of the
    generated document is not tracked. *)
Definition page (code : nat) (p : Payload) (r : Response) : Response :=
  setPayload p
    (setHeader "Content-Type" "text/html; charset=utf-8"
       (setHeader "X-Content-Type-Options" "nosniff"
          (setHeader "Content-Security-Policy" "default-src 'none'"
             (removeHeader "Content-Range"
                (removeHeader "Content-Language"
                   (removeHeader "Content-Encoding" (setStatus code r))))))).

Definition isErrorCode (n : nat) : bool := (400 <=? n)%nat && (n <? 600)%nat.

(** What Express does when no layer is left: 404 without an error;
    with one, the status the error carries, else the one of the
    response, else 500, and the error goes to the console (the page shows
    the stack, as outside production). *)
Definition finalhandler (err : option Error) (c : Ctx) (w : World DB) : Result :=
  match err with
  | None =>
      finish (withRes c (page 404 (NotFoundPage (method (req c))
                                     (pathname (target (req c)))) (res c))) w
  | Some e =>
      let code :=
        match status e with
        | Some s => if isErrorCode s then s
                    else if isErrorCode (statusCode (res c)) then statusCode (res c)
                    else 500
        | None => if isErrorCode (statusCode (res c)) then statusCode (res c) else 500
        end in
      finish (withRes c (page code (ErrorPage (stack e)) (res c))) (log (Err (stack e)) w)
  end.

(** [router.handle] and its [next]: layers in the order of the
    [app.use] calls; a layer whose mount point does not match is
    skipped; while an error is pending the request handlers are
    skipped, and without one the error handlers are; an exception in a
    handler is [next(err)]. *)
Fixpoint dispatch (layers : list Layer) (err : option Error) (c : Ctx) (w : World DB)
  : Result :=
  match layers with
  | [] => finalhandler err c w
  | l :: rest =>
      match matchMount (mount l) (pathname (url c)) with
      | None => dispatch rest err c w
      | Some removed =>
          let '(c1, added) := enter removed c in
          let ran :=
            match handler l, err with
            | Middleware f, None => Some (f c1 w)
            | ErrorMiddleware f, Some e => Some (f e c1 w)
            | _, _ => None
            end in
          match ran with
          | None => dispatch rest err c w
          | Some (w', Next c') =>
              visit (name l) Passed
                (dispatch rest None (leave removed (baseUrl c) added c') w')
          | Some (w', Raise e c') =>
              visit (name l) Failed
                (dispatch rest (Some e) (leave removed (baseUrl c) added c') w')
          | Some (w', Sent c') => visit (name l) Responded (finish c' w')
          end
      end
  end.

(** The context Express starts from: [req.url] is the request target,
    nothing is parsed, and the response is 200 with the
    [X-Powered-By] header its [expressInit] sets. *)
Definition initial (r : Request) : Ctx :=
  mkCtx r (target r) EmptyString Unparsed false None
    (setHeader "X-Powered-By" "Express" (mkResponse 200 ∅ NoPayload)) false.

(** [app.handle] *)
Definition handle (app : list Layer) (r : Request) (w : World DB) : Result :=
  dispatch app None (initial r) w.

End Router.

Arguments Handler : clear implicits.
Arguments Layer : clear implicits.
Arguments Result : clear implicits.

End Express.

(** ** helmet: fixed response headers

    [helmet()] is called without options: it sets the header set of the
    installed release, the same for every request, and removes
    [X-Powered-By].  The set is the parameter [configured]. *)

Module Helmet.
Import Text Http.

Definition setAll (configured : list (string * string)) (r : Response) : Response :=
  fold_left (fun acc nv => setHeader (fst nv) (snd nv) acc) configured r.

Definition helmet (configured : list (string * string)) (c : Ctx) : Outcome :=
  Next (withRes c (setAll configured (removeHeader "X-Powered-By" (res c)))).

End Helmet.

(** ** cors with its default options

    [origin: '*'], [methods: 'GET,HEAD,PUT,PATCH,POST,DELETE'],
    [preflightContinue: false], [optionsSuccessStatus: 204]. *)

Module Cors.
Import Text Http.

(** [vary(res, field)]: the field joins the Vary header unless it, or
    the wildcard, is there already. *)
Definition vary (field : string) (r : Response) : Response :=
  match getHeader "Vary" r with
  | None => setHeader "Vary" field r
  | Some v =>
      let fields := List.map (fun f => toLowerCase (trim f)) (split "," v) in
      if existsb (String.eqb "*") fields then setHeader "Vary" "*" r
      else if existsb (String.eqb (toLowerCase field)) fields then r
      else setHeader "Vary" (if String.eqb v EmptyString then field else v ++ ", " ++ field) r
  end.

Definition allowOrigin : Response -> Response :=
  setHeader "Access-Control-Allow-Origin" "*".

Definition allowMethods : Response -> Response :=
  setHeader "Access-Control-Allow-Methods" "GET,HEAD,PUT,PATCH,POST,DELETE".

(** no [allowedHeaders] option: the headers the request asks for are
    reflected *)
Definition allowHeaders (rq : Request) (r : Response) : Response :=
  let r1 := vary "Access-Control-Request-Headers" r in
  match get rq "access-control-request-headers" with
  | Some h => if String.eqb h EmptyString then r1
              else setHeader "Access-Control-Allow-Headers" h r1
  | None => r1
  end.

Definition isPreflight (rq : Request) : bool :=
  String.eqb (toUpperCase (method rq)) "OPTIONS".

Definition cors (c : Ctx) : Outcome :=
  if isPreflight (req c) then
    Sent (withRes c
            (setPayload NoPayload
               (setHeader "Content-Length" "0"
                  (setStatus 204
                     (allowHeaders (req c) (allowMethods (allowOrigin (res c))))))))
  else Next (withRes c (allowOrigin (res c))).

End Cors.

(** ** morgan('common')

    The middleware itself only subscribes to the end of the response; the
    line is written by [Express.finish]. *)

Module Morgan.
Import Http.

Definition morgan (c : Ctx) : Outcome := Next (withLogOnFinish c).

End Morgan.

(** ** body-parser: [express.json()] and [express.urlencoded({extended: false})] *)

Module BodyParser.
Import Text Json Http.

(** [typeis.hasBody]: a Transfer-Encoding header, or a Content-Length
    (Node's parser lets only decimal values through for it). *)
Definition hasBody (r : Request) : bool :=
  match get r "transfer-encoding", get r "content-length" with
  | None, None => false
  | _, _ => true
  end.

(** *** The Content-Type header: media type and parameters *)

Fixpoint spaces (s : string) : string :=
  match s with
  | String " " r => spaces r
  | _ => s
  end.

Fixpoint spacesEnd (s : string) : string :=
  match s with
  | EmptyString => EmptyString
  | String c r =>
      match spacesEnd r with
      | EmptyString => if Ascii.eqb c " " then EmptyString else String c EmptyString
      | r' => String c r'
      end
  end.

Definition isTokenChar (c : ascii) : bool :=
  let n := N_of_ascii c in
  ((48 <=? n) && (n <=? 57) || (65 <=? n) && (n <=? 90) || (97 <=? n) && (n <=? 122)
   || existsb (N.eqb n) [33; 35; 36; 37; 38; 39; 42; 43; 45; 46; 94; 95; 96; 124; 126])%N.

Fixpoint token (s : string) : string * string :=
  match s with
  | String c r =>
      if isTokenChar c then let '(t, rest) := token r in (String c t, rest)
      else (EmptyString, s)
  | EmptyString => (EmptyString, EmptyString)
  end.

(** after an opening quote: the text up to the closing quote, escapes
    resolved, and what follows *)
Fixpoint quoted (s : string) : option (string * string) :=
  match s with
  | EmptyString => None
  | String c r =>
      let n := N_of_ascii c in
      if Ascii.eqb c DQUOTE then Some (EmptyString, r)
      else if Ascii.eqb c "\" then
        match r with
        | String e r1 =>
            if ((32 <=? N_of_ascii e) && (N_of_ascii e <=? 126))%N then
              match quoted r1 with
              | Some (t, rest) => Some (String e t, rest)
              | None => None
              end
            else None
        | EmptyString => None
        end
      else if ((n =? 32) || (n =? 33) || (35 <=? n) && (n <=? 91)
               || (93 <=? n) && (n <=? 126) || (128 <=? n))%N then
        match quoted r with
        | Some (t, rest) => Some (String c t, rest)
        | None => None
        end
      else None
  end.

(** a sequence of [; name = value] up to the end of the header *)
Fixpoint parameters (fuel : nat) (s : string) (acc : list (string * string))
  : option (list (string * string)) :=
  match fuel with
  | O => None
  | S fuel =>
      match s with
      | EmptyString => Some (rev acc)
      | String ";" r =>
          let '(k, r1) := token (spaces r) in
          match k, spaces r1 with
          | String _ _, String "=" r2 =>
              match spaces r2 with
              | String q r3 =>
                  if Ascii.eqb q DQUOTE then
                    match quoted r3 with
                    | Some (v, r4) => parameters fuel (spaces r4) ((toLowerCase k, v) :: acc)
                    | None => None
                    end
                  else
                    match token (String q r3) with
                    | (String a v, r4) =>
                        parameters fuel (spaces r4) ((toLowerCase k, String a v) :: acc)
                    | _ => None
                    end
              | EmptyString => None
              end
          | _, _ => None
          end
      | _ => None
      end
  end.

Fixpoint from (stop : ascii) (s : string) : string :=
  match s with
  | EmptyString => EmptyString
  | String c r => if Ascii.eqb c stop then s else from stop r
  end.

(** the media type in lower case, without its parameters, and the
    parameters; [None] when the header does not parse *)
Definition mediaType (value : string) : option (string * list (string * string)) :=
  match value with
  | EmptyString => None
  | _ =>
      match parameters (S (String.length value)) (from ";" value) [] with
      | Some ps => Some (toLowerCase (spacesEnd (spaces (before ";" value))), ps)
      | None => None
      end
  end.

(** [typeis(req, expected)] for a full media type *)
Definition typeis (r : Request) (expected : string) : bool :=
  hasBody r &&
  match get r "content-type" with
  | Some v => match mediaType v with
              | Some (t, _) => String.eqb t expected
              | None => false
              end
  | None => false
  end.

Fixpoint lastParam (k : string) (ps : list (string * string)) : option string :=
  match ps with
  | [] => None
  | (k', v) :: r =>
      match lastParam k r with
      | Some x => Some x
      | None => if String.eqb k k' then Some v else None
      end
  end.

(** [getCharset(req) || 'utf-8'] *)
Definition getCharset (r : Request) : string :=
  match get r "content-type" with
  | Some v =>
      match mediaType v with
      | Some (_, ps) =>
          match lastParam "charset" ps with
          | Some (String a cs) => toLowerCase (String a cs)
          | _ => "utf-8"
          end
      | None => "utf-8"
      end
  | None => "utf-8"
  end.

(** *** Reading the body *)

(** the default [limit], ['100kb'] *)
Definition limit : N := 102400.

(** The length of the body against the limit.  Node frames the body by
    its Content-Length, so that the header, when there is one, gives
    this length. *)
Definition tooLarge (r : Request) : bool :=
  (limit <? N.of_nat (String.length (entity r)))%N.

(** errors as http-errors builds them; the wording of the message and
    the frames of the stack are the engine's and are not reproduced *)
Definition httpError (code : nat) (type : string) : Error :=
  mkError (Some code) type type.

(** [req.headers['content-encoding'] || 'identity'], in lower case *)
Definition contentEncoding (r : Request) : string :=
  match get r "content-encoding" with
  | Some (String a s) => toLowerCase (String a s)
  | _ => "identity"
  end.

(** [read], with raw-body below it.  A content coding other than
    [identity], [gzip] and [deflate] is refused.  A declared length over
    the limit is refused before anything is read; then the decoder is
    looked up; then the bytes are read, under the limit, and decoded. *)
Definition read `{Codec} (charset : string) (r : Request) : Error + string :=
  let coding := contentEncoding r in
  if String.eqb coding "identity" then
    match get r "content-length" with
    | Some _ =>
        if tooLarge r then inl (httpError 413 "entity.too.large")
        else if encodingExists charset then inr (decode charset (entity r))
        else inl (httpError 415 "charset.unsupported")
    | None =>
        if negb (encodingExists charset) then inl (httpError 415 "charset.unsupported")
        else if tooLarge r then inl (httpError 413 "entity.too.large")
        else inr (decode charset (entity r))
    end
  else if String.eqb coding "gzip" || String.eqb coding "deflate" then
    if negb (encodingExists charset) then inl (httpError 415 "charset.unsupported")
    else
      match inflate coding limit (entity r) with
      | inl e => inl e
      | inr bytes => inr (decode charset bytes)
      end
  else inl (httpError 415 "encoding.unsupported").

(** [req.body = req.body || {}] *)
Definition ensureBody (c : Ctx) : Ctx :=
  match body c with
  | Unparsed => withBody c (ParsedJson (JObject [])) (bodyRead c)
  | _ => c
  end.

(** *** JSON *)

(** The [parse] function of the JSON parser in its default strict mode,
    on the decoded text: an empty text is the empty object; the first
    character that is not a blank must open an object or an array; then
    [JSON.parse].  [None] is the exception it throws. *)
Definition parseJson (text : string) : option JSON :=
  match text with
  | EmptyString => Some (JObject [])
  | _ =>
      match skipWs text with
      | String c _ =>
          if Ascii.eqb c "{" || Ascii.eqb c "[" then parse text else None
      | EmptyString => None
      end
  end.

Definition json `{Codec} (c : Ctx) : Outcome :=
  if bodyRead c then Next c
  else
    let c0 := ensureBody c in
    if negb (typeis (req c) "application/json") then Next c0
    else if negb (startsWith "utf-" (getCharset (req c)))
    then Raise (httpError 415 "charset.unsupported") c0
    else
      let c1 := withBody c0 (body c0) true in
      match read (getCharset (req c)) (req c) with
      | inl e => Raise e c1
      | inr text =>
          match parseJson text with
          | Some v => Next (withBody c1 (ParsedJson v) true)
          | None => Raise (httpError 400 "entity.parse.failed") c1
          end
      end.

(** *** Forms *)

(** [querystring.unescape] on bytes, with [+] for a space; an escape
    that is not two hexadecimal digits stays as it is *)
Fixpoint unescape (s : string) : string :=
  match s with
  | EmptyString => EmptyString
  | String c r =>
      if Ascii.eqb c "+" then String " " (unescape r)
      else if Ascii.eqb c "%" then
        match r with
        | String h1 (String h2 r2) =>
            match hexVal h1, hexVal h2 with
            | Some a, Some b => String (ascii_of_N (16 * a + b)) (unescape r2)
            | _, _ => String c (unescape r)
            end
        | _ => String c (unescape r)
        end
      else String c (unescape r)
  end.

(** The pairs of a form in the order of the text, from which
    [querystring.parse] builds [req.body] (a name that occurs twice holds
    the array of its values). *)
Definition queryparse (text : string) : list (string * string) :=
  List.map (fun piece => (unescape (before "=" piece),
                          match after "=" piece with
                          | Some v => unescape v
                          | None => EmptyString
                          end))
    (List.filter (fun piece => negb (String.eqb piece EmptyString)) (split "&" text)).

(** the default [parameterLimit] *)
Definition parameterLimit : nat := 1000.

(** [parameterCount] counts the ampersands and gives up at the limit:
    1000 ampersands, that is 1001 parameters, are too many. *)
Fixpoint ampersands (s : string) : nat :=
  match s with
  | EmptyString => 0
  | String c r => if Ascii.eqb c "&" then S (ampersands r) else ampersands r
  end.

Definition urlencoded `{Codec} (c : Ctx) : Outcome :=
  if bodyRead c then Next c
  else
    let c0 := ensureBody c in
    if negb (typeis (req c) "application/x-www-form-urlencoded") then Next c0
    else if negb (String.eqb (getCharset (req c)) "utf-8")
    then Raise (httpError 415 "charset.unsupported") c0
    else
      let c1 := withBody c0 (body c0) true in
      match read (getCharset (req c)) (req c) with
      | inl e => Raise e c1
      | inr text =>
          if (parameterLimit <=? ampersands text)%nat
          then Raise (httpError 413 "parameters.too.many") c1
          else Next (withBody c1 (ParsedForm (queryparse text)) true)
      end.

End BodyParser.

(** ** express-rate-limit with its memory store *)

Module RateLimit.
Import Text Http.

(** The options [server.js] passes; the others keep their defaults:
    status 429, the [X-RateLimit-*] headers on, the key is [req.ip]. *)
Record Options : Type := mkOptions {
  windowMs : Z;
  max : nat;
  message : string
}.

Definition statusCode : nat := 429.

(** *** MemoryStore *)

(** [incr(key)]: one more hit for the key; the new count is handed to
    the middleware *)
Definition incr (key : string) (h : gmap string nat) : gmap string nat * nat :=
  let n := match h !! key with
           | Some n => S n
           | None => 1
           end in
  (<[key := n]> h, n).

(** [resetAll()], which [setInterval] calls every [windowMs] *)
Definition resetAll (h : gmap string nat) : gmap string nat := ∅.

(** [Math.ceil(windowMs / 1000)] *)
Definition retryAfter (o : Options) : Z := (windowMs o + 999) / 1000.

(** *** The middleware

    The hit is counted first; the request is refused when the count
    is above [max].  The headers that carry wall-clock values ([Date],
    [X-RateLimit-Reset]) are not tracked. *)
Definition rateLimit {DB} (o : Options) (c : Ctx) (w : World DB) : World DB * Outcome :=
  let '(h, n) := incr (ip (req c)) (hits w) in
  let w' := withHits w h in
  let info := mkRateInfo (max o) n (max o - n) in
  let r1 := setHeader "X-RateLimit-Remaining" (pretty (remaining info))
              (setHeader "X-RateLimit-Limit" (pretty (max o)) (res c)) in
  let c1 := withRes (withRateLimit c info) r1 in
  if (0 <? max o)%nat && (max o <? n)%nat then
    (w', Sent (withRes c1
                 (sendText (message o)
                    (setStatus statusCode
                       (setHeader "Retry-After" (pretty (retryAfter o)) r1)))))
  else (w', Next c1).

End RateLimit.

(** ** [server.js]: the application *)

Import Text Json Http Express.

(** The stages, named after the [app.use] calls of lines 18 to 51. *)
Inductive Stage : Type :=
| Helmet
| Cors
| Morgan
| JsonParser
| UrlencodedParser
| RateLimiter
| CustomersRouter
| AnalyticsRouter
| ErrorHandler.

#[global] Instance Stage_eq_dec : EqDecision Stage.
Proof. solve_decision. Defined.

(** Lines 25 to 29: the options of the limiter. *)
Definition limiterOptions : RateLimit.Options :=
  RateLimit.mkOptions (15 * 60 * 1000) 100
    "Too many requests from this IP, please try again later.".

(** Lines 47 to 50: the object the error handler sends. *)
Definition errorBody : JSON :=
  JObject [("status", JString "error");
           ("message", JString "An internal error occurred. Please try again later.")].

Section Server.
Context {DB : Type} {codec : Codec}.

(** the header set of the installed helmet release *)
Variable helmetHeaders : list (string * string).

(** [require('./routes/customers')] and [require('./routes/analytics')] *)
Variables customersRouter analyticsRouter : Ctx -> DB -> DB * Outcome.

Definition limiter : Ctx -> World DB -> World DB * Outcome :=
  RateLimit.rateLimit limiterOptions.

(** Lines 45 to 51: [console.error(err.stack)], then
    [res.status(500).send({...})]. *)
Definition errorHandler (err : Error) (c : Ctx) (w : World DB) : World DB * Outcome :=
  (log (Err (stack err)) w,
   Sent (withRes c (sendJson errorBody (setStatus 500 (res c))))).

(** The layers in the order of the [app.use] calls. *)
Definition app : list (Layer DB Stage) :=
  [ mkLayer Helmet "/" (stateless (Helmet.helmet helmetHeaders));
    mkLayer Cors "/" (stateless Cors.cors);
    mkLayer Morgan "/" (stateless Morgan.morgan);
    mkLayer JsonParser "/" (stateless BodyParser.json);
    mkLayer UrlencodedParser "/" (stateless BodyParser.urlencoded);
    mkLayer RateLimiter "/" (Middleware limiter);
    mkLayer CustomersRouter "/api/customers" (stateful customersRouter);
    mkLayer AnalyticsRouter "/api/analytics" (stateful analyticsRouter);
    mkLayer ErrorHandler "/" (ErrorMiddleware errorHandler) ].

Definition serve (r : Request) (w : World DB) : Result DB Stage := handle app r w.

(** *** The server over time

    The memory store of the limiter is created with the application and
    its interval timer fires every [windowMs] from then on.  Time is in
    milliseconds since that moment; [window t] is the number of firings
    due at time [t]. *)
Definition window (t : Z) : Z := t / RateLimit.windowMs limiterOptions.

Record Server : Type := mkServer {
  world : World DB;
  fired : Z
}.

Definition boot (d : DB) : Server := mkServer (mkWorld ∅ [] d) 0.

(** a request that arrives at time [t]: the firings that are due come
    first *)
Definition arrive (t : Z) (r : Request) (s : Server) : Server * Result DB Stage :=
  let w := if (fired s <? window t)%Z
           then withHits (world s) (RateLimit.resetAll (hits (world s)))
           else world s in
  let out := serve r w in
  (mkServer (final out) (Z.max (fired s) (window t)), out).

Fixpoint run (s : Server) (arrivals : list (Z * Request)) : list (Result DB Stage) :=
  match arrivals with
  | [] => []
  | (t, r) :: rest => let '(s', out) := arrive t r s in out :: run s' rest
  end.

(** The stages before the limiter touch the request context only.
    [upstream] is their composition; a request reaches the limiter
    when all of them call [next()]. *)
Definition andThen (o : Outcome) (f : Ctx -> Outcome) : Outcome :=
  match o with
  | Next c => f c
  | _ => o
  end.

Definition upstream (r : Request) : Outcome :=
  andThen (andThen (andThen (andThen (Helmet.helmet helmetHeaders (initial r))
    Cors.cors) Morgan.morgan) BodyParser.json) BodyParser.urlencoded.

Definition reachesLimiter (r : Request) : bool :=
  match upstream r with
  | Next _ => true
  | _ => false
  end.

End Server.

(** ** [server.js]: start-up *)

Module Dotenv.

(** [require('dotenv').config()]: the assignments of the [.env] file
    join [process.env] for the names it does not define yet. *)
Definition config (environment file : gmap string string) : gmap string string :=
  environment ∪ file.

End Dotenv.

Module Startup.

(** the value of [process.env.PORT || 5000]: a string or the number *)
Inductive Port : Type :=
| PortText (s : string)
| PortNumber (n : Z).

(** what the server socket is asked for: a TCP port, or, for port 0, a
    port of the system's choosing *)
Inductive Listening : Type :=
| OnPort (n : N)
| OnAnyPort.

(** The script runs; or an exception that nothing catches has ended
    it; or it has taken a step that is not followed here. *)
Inductive State : Type :=
| Running
| Dead (exception : string)
| NotFollowed.

(** The process: [process.env], the connection attempts started by
    [mongoose.connect] (the URI of each), what [app.listen] has asked
    for, and the lines written by [console.log]. *)
Record Process : Type := mkProcess {
  env : gmap string string;
  connects : list string;
  listening : option Listening;
  stdout : list string;
  state : State
}.

Definition console_log (line : string) (p : Process) : Process :=
  mkProcess (env p) (connects p) (listening p) (stdout p ++ [line]) (state p).

Definition throw (exception : string) (p : Process) : Process :=
  mkProcess (env p) (connects p) (listening p) (stdout p) (Dead exception).

(** the next statement runs when no exception has ended the script *)
Definition whenRunning (f : Process -> Process) (p : Process) : Process :=
  match state p with
  | Running => f p
  | _ => p
  end.

(** Line 54.  [||] takes its right operand when the left one is
    [undefined] or the empty string. *)
Definition PORT (e : gmap string string) : Port :=
  match e !! "PORT" with
  | Some (String a s) => PortText (String a s)
  | Some EmptyString | None => PortNumber 5000
  end.

(** the text of [${PORT}] *)
Definition portText (p : Port) : string :=
  match p with
  | PortText s => s
  | PortNumber n => pretty n
  end.

(** [mongoose.connect(uri, options, callback)], as in mongoose 5, whose
    options lines 34 and 35 name: a URI that is not a string is refused
    by an exception of the call itself; otherwise one connection attempt
    is started, and [callback(err)] runs when it settles. *)
Definition mongoose_connect (uri : option string) (p : Process) : Process :=
  match uri with
  | None => throw "MongooseError" p
  | Some u => mkProcess (env p) (connects p ++ [u]) (listening p) (stdout p) (state p)
  end.

(** Lines 36 to 38: the callback, an arrow function without
    parameters. *)
Definition onConnect (p : Process) : Process :=
  console_log "Connected to database" p.

(** Calling a function that declares no parameter: the arguments are
    dropped. *)
Definition call0 {A : Type} (f : Process -> Process) (args : A) : Process -> Process := f.

(** a text of decimal digits, as a number *)
Definition digit (c : ascii) : option N :=
  let n := N_of_ascii c in
  if ((48 <=? n) && (n <=? 57))%N then Some (n - 48)%N else None.

Fixpoint decimalFrom (acc : N) (s : string) : option N :=
  match s with
  | EmptyString => Some acc
  | String c r =>
      match digit c with
      | Some d => decimalFrom (10 * acc + d)%N r
      | None => None
      end
  end.

Definition decimal (s : string) : option N :=
  match s with
  | EmptyString => None
  | _ => decimalFrom 0 s
  end.

Definition listen (n : N) (p : Process) : Process :=
  if (65535 <? n)%N then throw "ERR_SOCKET_BAD_PORT" p
  else mkProcess (env p) (connects p)
         (Some (if (n =? 0)%N then OnAnyPort else OnPort n)) (stdout p) (state p).

(** [app.listen(PORT, callback)].  A port outside 0 to 65535 is refused
    by an exception of the call.  A text of decimal digits is the port of
    that number.  Any other text is not followed: Node takes it for a
    number written otherwise, or for the path of a pipe. *)
Definition app_listen (port : Port) (p : Process) : Process :=
  match port with
  | PortNumber n =>
      if (n <? 0)%Z then throw "ERR_SOCKET_BAD_PORT" p else listen (Z.to_N n) p
  | PortText s =>
      match decimal s with
      | Some n => listen n p
      | None => mkProcess (env p) (connects p) (listening p) (stdout p) NotFollowed
      end
  end.

(** Lines 55 to 57: the callback of [app.listen]. *)
Definition onListen (p : Process) : Process :=
  console_log ("Server is running on port " ++ portText (PORT (env p))) p.

(** The statements of the script with an effect on the process, in
    order: line 5, lines 33 to 38, lines 54 and 55. *)
Definition main (environment file : gmap string string) : Process :=
  let p0 := mkProcess (Dotenv.config environment file) [] None [] Running in
  let p1 := mongoose_connect (env p0 !! "MONGO_URI") p0 in
  whenRunning (fun p => app_listen (PORT (env p)) p) p1.

(** What the event loop delivers to a running script afterwards: the
    connection attempt settles, with an error or without; the socket is
    bound. *)
Inductive Event : Type :=
| ConnectSettled (err : option Error)
| ListenBound.

(** the callback an event invokes *)
Definition deliver (e : Event) (p : Process) : Process :=
  match e with
  | ConnectSettled err => call0 onConnect err p
  | ListenBound => onListen p
  end.

Definition run (environment file : gmap string string) (events : list Event) : Process :=
  fold_left (fun p e => whenRunning (deliver e) p) events (main environment file).

End Startup.

(** * Notions used in the statements *)

(** ** About layers *)

Definition isRequestHandler {DB Name : Type} (l : Layer DB Name) : Prop :=
  match handler l with
  | Middleware _ => True
  | ErrorMiddleware _ => False
  end.

(** what a layer does to the process state and to the response *)
Definition keepsWorld {DB Name : Type} (P : World DB -> Prop) (l : Layer DB Name) : Prop :=
  match handler l with
  | Middleware f => forall c w, P w -> P (f c w).1
  | ErrorMiddleware f => forall e c w, P w -> P (f e c w).1
  end.

Definition keepsResponse {DB Name : Type} (Q : Response -> Prop) (l : Layer DB Name) : Prop :=
  match handler l with
  | Middleware f => forall c w, Q (res c) -> Q (res (ctxOf (f c w).2))
  | ErrorMiddleware f => forall e c w, Q (res c) -> Q (res (ctxOf (f e c w).2))
  end.

(** ** About the application *)

(** the stages declared before the routes, and their trace when each of
    them has called [next()] *)
Definition middleware : list Stage :=
  [Helmet; Cors; Morgan; JsonParser; UrlencodedParser; RateLimiter].

Definition allPassed (stages : list Stage) : list (Stage * Step) :=
  (fun s => (s, Passed)) <$> stages.

Definition isRouter (s : Stage) : bool :=
  match s with
  | CustomersRouter | AnalyticsRouter => true
  | _ => false
  end.

(** the limiter and the routers *)
Definition isDownstream (s : Stage) : bool :=
  match s with
  | RateLimiter | CustomersRouter | AnalyticsRouter => true
  | _ => false
  end.

(** the text of the body the error handler sends *)
Definition errorText : string :=
  js "{'status':'error','message':'An internal error occurred. Please try again later.'}".

(** what the client gets from the error handler *)
Definition errorResponse (r : Response) : Response :=
  sendJson errorBody (setStatus 500 r).

Definition isClientError (code : nat) : Prop := 400 <= code < 500.

(** ** About the limiter *)

(** the count the store returns for a request of the context's client *)
Definition hitNumber {DB : Type} (c : Ctx) (w : World DB) : nat :=
  S (default 0 (hits w !! ip (req c))).

Definition counted {DB : Type} (c : Ctx) (w : World DB) : World DB :=
  withHits w (<[ip (req c) := hitNumber c w]> (hits w)).

(** arrival times start at [from] and do not decrease *)
Fixpoint chronological (from : Z) (arrivals : list (Z * Request)) : Prop :=
  match arrivals with
  | [] => True
  | (t, _) :: rest => (from <= t)%Z /\ chronological t rest
  end.

(** an arrival that the limiter counts for [client] in window [k] *)
Definition countsFor {codec : Codec} (configured : list (string * string)) (k : Z) (client : string)
  (a : Z * Request) : bool :=
  (window a.1 =? k)%Z && String.eqb (ip a.2) client && reachesLimiter configured a.2.

Definition hitsInWindow {codec : Codec} (configured : list (string * string)) (k : Z) (client : string)
  (arrivals : list (Z * Request)) : nat :=
  length (List.filter (countsFor configured k client) arrivals).

(** what the limiter decides for the [n]-th counted request of a client
    in a window *)
Definition verdict {DB : Type} (out : Result DB Stage) (n : nat) : Prop :=
  (n <= 100 -> (RateLimiter, Passed) ∈ trace out) /\
  (100 < n ->
   trace out = (allPassed [Helmet; Cors; Morgan; JsonParser; UrlencodedParser]
                ++ [(RateLimiter, Responded)])%list /\
   statusCode (response out) = 429 /\
   payload (response out) =
     Content "Too many requests from this IP, please try again later.").

(** ** About the order of the stages *)

(** The spec's reading of stages that execute strictly in sequence:
    they run one after the other in the order of the list, each on the
    request and the state as the stage before left them, and the first
    stage that answers or fails ends the sequence.  The result is the
    steps taken, the state, and how the sequence ended. *)
Fixpoint inSequence {DB : Type}
  (stages : list (Stage * (Ctx -> World DB -> World DB * Outcome)))
  (c : Ctx) (w : World DB) : list (Stage * Step) * World DB * Outcome :=
  match stages with
  | [] => ([], w, Next c)
  | (s, f) :: rest =>
      match f c w with
      | (w', Next c') =>
          let '(steps, w'', o) := inSequence rest c' w' in ((s, Passed) :: steps, w'', o)
      | (w', Raise e c') => ([(s, Failed)], w', Raise e c')
      | (w', Sent c') => ([(s, Responded)], w', Sent c')
      end
  end.

(** the middleware of lines 18 to 30, in the order of the lines *)
Definition declaredMiddleware {DB : Type} {codec : Codec} (configured : list (string * string))
  : list (Stage * (Ctx -> World DB -> World DB * Outcome)) :=
  [ (Helmet, fun c w => (w, Helmet.helmet configured c));
    (Cors, fun c w => (w, Cors.cors c));
    (Morgan, fun c w => (w, Morgan.morgan c));
    (JsonParser, fun c w => (w, BodyParser.json c));
    (UrlencodedParser, fun c w => (w, BodyParser.urlencoded c));
    (RateLimiter, limiter) ].

(** stages as layers mounted at the root *)
Definition asLayers {DB : Type}
  (stages : list (Stage * (Ctx -> World DB -> World DB * Outcome))) : list (Layer DB Stage) :=
  (fun sf => mkLayer sf.1 "/" (Middleware sf.2)) <$> stages.

(** a result with the steps that were taken before it *)
Definition precededBy {DB : Type} (steps : list (Stage * Step)) (out : Result DB Stage)
  : Result DB Stage :=
  mkResult (response out) (final out) (steps ++ trace out).

(** ** About the security headers *)

(** every configured header is in the response, with the configured
    value *)
Definition carries (configured : list (string * string)) (r : Response) : Prop :=
  Forall (fun nv => getHeader nv.1 r = Some nv.2) configured.

(** a router that leaves the configured headers as they are *)
Definition keepsHeaders {DB : Type} (configured : list (string * string))
  (router : Ctx -> DB -> DB * Outcome) : Prop :=
  forall c d, carries configured (res c) -> carries configured (res (ctxOf (router c d).2)).

(** no header is configured twice *)
Definition distinctNames (configured : list (string * string)) : Prop :=
  NoDup ((fun nv => toLowerCase nv.1) <$> configured).

(** the headers that cors, the limiter, [res.send] and the default
    handler write or remove, other than the two security headers of the
    default handler's page *)
Definition writtenByStages : list string :=
  ["access-control-allow-origin"; "access-control-allow-methods";
   "access-control-allow-headers"; "vary"; "content-length"; "content-type";
   "x-ratelimit-limit"; "x-ratelimit-remaining"; "retry-after";
   "content-encoding"; "content-language"; "content-range"].

Definition securityOnly (configured : list (string * string)) : Prop :=
  Forall (fun nv => toLowerCase nv.1 ∉ writtenByStages) configured.

(** a configured header as the default handler's page has it: the page
    comes with a content security policy and a sniffing policy of its
    own *)
Definition onDefaultPage (nv : string * string) : string * string :=
  if String.eqb (toLowerCase nv.1) "content-security-policy"
  then (nv.1, "default-src 'none'")
  else if String.eqb (toLowerCase nv.1) "x-content-type-options"
  then (nv.1, "nosniff")
  else nv.

(** ** About routing *)

Definition noRouteMatches (r : Request) : Prop :=
  matchMount "/api/customers" (pathname (target r)) = None /\
  matchMount "/api/analytics" (pathname (target r)) = None.

(** ** Sample deployment

    A header set as helmet releases define it, two routers, a client and
    a few requests, to run the statements on. *)

Definition sampleHeaders : list (string * string) :=
  [ ("Content-Security-Policy",
     "default-src 'self';base-uri 'self';font-src 'self' https: data:;frame-ancestors 'self';img-src 'self' data:;object-src 'none';script-src 'self';script-src-attr 'none';style-src 'self' https: 'unsafe-inline';upgrade-insecure-requests");
    ("X-DNS-Prefetch-Control", "off");
    ("X-Frame-Options", "SAMEORIGIN");
    ("Strict-Transport-Security", "max-age=15552000; includeSubDomains");
    ("X-Download-Options", "noopen");
    ("X-Content-Type-Options", "nosniff");
    ("X-Permitted-Cross-Domain-Policies", "none");
    ("Referrer-Policy", "no-referrer");
    ("X-XSS-Protection", "0") ].

(** The part of zlib and iconv-lite the sample requests need: their
    bodies are ASCII texts in UTF-8 without a content coding, which the
    decoder returns as they are, a byte order mark apart. *)
Definition byteOrderMark : string :=
  String (ascii_of_nat 239) (String (ascii_of_nat 187) (String (ascii_of_nat 191) EmptyString)).

Definition sampleCodec : Codec :=
  mkCodec (fun _ _ _ => inl (mkError None "Z_DATA_ERROR" "Error: incorrect header check"))
          (fun charset => String.eqb charset "utf-8")
          (fun _ bytes => if startsWith byteOrderMark bytes then slice 3 bytes else bytes).

(** a customers router that answers with an empty list *)
Definition sampleCustomers (c : Ctx) (d : unit) : unit * Outcome :=
  (d, Sent (withRes c (sendJson (JArray []) (res c)))).

(** an analytics router whose datastore query fails *)
Definition sampleAnalytics (c : Ctx) (d : unit) : unit * Outcome :=
  (d, Raise (mkError None "MongoError" "MongoError: topology was destroyed") c).

Definition sampleServe : Request -> World unit -> Result unit Stage :=
  serve (codec := sampleCodec) sampleHeaders sampleCustomers sampleAnalytics.

Definition freshWorld : World unit := mkWorld ∅ [] tt.

(** the client has used its 100 requests of the window *)
Definition busyWorld : World unit := mkWorld {["203.0.113.7" := 100]} [] tt.

Definition getUnknown : Request :=
  mkRequest "GET" "/api/unknown" ∅ EmptyString "203.0.113.7".

Definition getAnalytics : Request :=
  mkRequest "GET" "/api/analytics/daily" ∅ EmptyString "203.0.113.7".

(** [Content-Type: application/json] with the body [{malformed] *)
Definition postMalformed : Request :=
  mkRequest "POST" "/api/customers"
    (<["content-type" := "application/json"]> (<["content-length" := "10"]> ∅))
    "{malformed" "203.0.113.7".

(** ** About the server over time *)

(** The state of the server agrees with the arrivals handled so far, the
    last of them at time [lo]: the timer has fired [window lo] times, and
    the counter of every client is the number of its requests counted in
    the current window. *)
Definition upToDate {DB : Type} {codec : Codec} (configured : list (string * string))
  (s : Server (DB := DB)) (past : list (Z * Request)) (lo : Z) : Prop :=
  (0 <= lo)%Z /\
  fired s = window lo /\
  Forall (fun a => (a.1 <= lo)%Z) past /\
  forall client,
    default 0 (hits (world s) !! client) = hitsInWindow configured (fired s) client past.

(** ** About start-up *)

(** [PORT] is absent or empty, or is a decimal numeral up to 65535 *)
Definition acceptablePort (e : gmap string string) : Prop :=
  match e !! "PORT" with
  | None | Some EmptyString => True
  | Some v => exists n, Startup.decimal v = Some n /\ (n <= 65535)%N
  end.

(** the same event with the error of a settled connection forgotten *)
Definition forget (e : Startup.Event) : Startup.Event :=
  match e with
  | Startup.ConnectSettled _ => Startup.ConnectSettled None
  | Startup.ListenBound => Startup.ListenBound
  end.

(** ** More sample inputs *)

(** 101 requests of one client, all one minute after the start *)
Definition sampleBurst : list (Z * Request) := replicate 101 (60000%Z, getUnknown).

Definition sampleError : Error := mkError None "MongoNetworkError" "MongoNetworkError: connect ECONNREFUSED".

(** ** About cross-origin access *)

(** the response lets any origin read it *)
Definition allowsAnyOrigin (r : Response) : Prop :=
  getHeader "Access-Control-Allow-Origin" r = Some "*".

(** a router that leaves that header as it is *)
Definition keepsOrigin {DB : Type} (router : Ctx -> DB -> DB * Outcome) : Prop :=
  forall c d, allowsAnyOrigin (res c) -> allowsAnyOrigin (res (ctxOf (router c d).2)).

(** ** About the stages before the limiter *)

(** the context after helmet, cors and morgan, for a request that is not
    a preflight *)
Definition afterMorgan (configured : list (string * string)) (r : Request) : Ctx :=
  withLogOnFinish
    (withRes (initial r)
       (Cors.allowOrigin
          (Helmet.setAll configured (removeHeader "X-Powered-By" (res (initial r)))))).

(** ** About the answer to a request *)

(** the routers among the stages run *)
Definition routersRun (tr : list (Stage * Step)) : list (Stage * Step) :=
  List.filter (fun v => isRouter v.1) tr.

(** the lines a request no router handles leaves on the console: the
    stack of an error, if a stage failed, then morgan's line *)
Definition accessLogged {DB : Type} (r : Request) (w : World DB) (out : Result DB Stage)
  : Prop :=
  exists errs,
    console (final out)
    = (console w ++ errs
       ++ [Access (ip r) (method r) (target r) (statusCode (response out))])%list /\
    (errs = [] \/ exists line, errs = [Err line]).

(** ** About windows *)

(** a client's full quota at [t1], then again at [t2] *)
Definition twoBursts (r : Request) (t1 t2 : Z) : list (Z * Request) :=
  (replicate 100 (t1, r) ++ replicate 100 (t2, r))%list.

(** ** Further sample inputs *)

Definition optionsCustomers : Request :=
  mkRequest "OPTIONS" "/api/customers" ∅ EmptyString "203.0.113.7".

(** a customers router that finds no route of its own and calls [next()] *)
Definition decliningCustomers (c : Ctx) (d : unit) : unit * Outcome := (d, Next c).

Definition getCustomers : Request :=
  mkRequest "GET" "/api/customers/42?full=1" ∅ EmptyString "203.0.113.7".


(** ** About what the server tells of itself *)

(** the response does not name Express *)
Definition hidesExpress (r : Response) : Prop := getHeader "X-Powered-By" r = None.

(** a router that does not put the header back *)
Definition keepsHidden {DB : Type} (router : Ctx -> DB -> DB * Outcome) : Prop :=
  forall c d, hidesExpress (res c) -> hidesExpress (res (ctxOf (router c d).2)).

(** a header set that does not hold [X-Powered-By] itself *)
Definition withoutPoweredBy (configured : list (string * string)) : Prop :=
  Forall (fun nv => toLowerCase nv.1 <> "x-powered-by") configured.

(** ** About the quota *)

(** the response tells the limit and how much of it is left *)
Definition tellsQuota (remaining : nat) (r : Response) : Prop :=
  getHeader "X-RateLimit-Limit" r = Some "100" /\
  getHeader "X-RateLimit-Remaining" r = Some (pretty remaining).

(** a router that leaves the two headers as they are *)
Definition keepsQuota {DB : Type} (router : Ctx -> DB -> DB * Outcome) : Prop :=
  forall c d n, tellsQuota n (res c) -> tellsQuota n (res (ctxOf (router c d).2)).

(** a start with [PORT] set to the empty string in the environment, and
    a [.env] file that gives 8080 *)
Definition sampleEnvironment : gmap string string :=
  <["PORT" := EmptyString]> {["MONGO_URI" := "mongodb://db/insight"]}.

Definition sampleFile : gmap string string := {["PORT" := "8080"]}.
(** * Properties *)

(** ** Dispatch *)

Section DispatchFacts.
Context {DB Name : Type}.
Implicit Types (layers pre post rest : list (Layer DB Name)) (c : Ctx) (w : World DB).

Lemma trace_finalhandler err c w : trace (finalhandler (Name := Name) err c w) = [].
Proof. destruct err; reflexivity. Qed.

(** While an error is pending the request handlers are passed over. *)
Lemma dispatch_skips_request_handlers pre post e c w :
  Forall isRequestHandler pre ->
  dispatch (pre ++ post) (Some e) c w = dispatch post (Some e) c w.
Proof.
  induction 1 as [|l pre Hl _ IH]; [reflexivity|]. simpl.
  destruct (matchMount (mount l) (pathname (url c))) as [removed|]; [|exact IH].
  destruct (enter removed c) as [c1 added].
  unfold isRequestHandler in Hl. destruct (handler l); [exact IH | contradiction].
Qed.

Lemma dispatch_skip_one (l : Layer DB Name) rest e c w :
  isRequestHandler l ->
  dispatch (l :: rest) (Some e) c w = dispatch rest (Some e) c w.
Proof.
  intros Hl. apply (dispatch_skips_request_handlers [l] rest). by constructor.
Qed.

(** A request handler mounted at the root, when no error is pending. *)
Lemma dispatch_root (n : Name) f rest c w :
  dispatch (mkLayer n "/" (Middleware f) :: rest) None c w =
  match f c w with
  | (w', Next c') => visit n Passed (dispatch rest None c' w')
  | (w', Raise e c') => visit n Failed (dispatch rest (Some e) c' w')
  | (w', Sent c') => visit n Responded (finish (Name := Name) c' w')
  end.
Proof. simpl. destruct (f c w) as [w' [c'|e c'|c']]; reflexivity. Qed.

(** The same for a handler that touches the context only. *)
Lemma dispatch_stateless (n : Name) (f : Ctx -> Outcome) rest c w :
  dispatch (mkLayer n "/" (stateless f) :: rest) None c w =
  match f c with
  | Next c' => visit n Passed (dispatch rest None c' w)
  | Raise e c' => visit n Failed (dispatch rest (Some e) c' w)
  | Sent c' => visit n Responded (finish (Name := Name) c' w)
  end.
Proof. unfold stateless. rewrite dispatch_root. destruct (f c); reflexivity. Qed.

Lemma res_enter (removed : string) c : res (enter removed c).1 = res c.
Proof. unfold enter. repeat case_match; reflexivity. Qed.

Lemma res_leave (removed parent : string) (added : bool) c :
  res (leave removed parent added c) = res c.
Proof. unfold leave. repeat case_match; reflexivity. Qed.

(** A property of the process state that the console does not affect and
    every layer keeps holds when the request has been handled. *)
Lemma dispatch_final_invariant (P : World DB -> Prop) layers :
  (forall l w, P w -> P (log l w)) ->
  Forall (keepsWorld P) layers ->
  forall err c w, P w -> P (final (dispatch layers err c w)).
Proof.
  intros Hlog Hall. induction Hall as [|l rest Hl _ IH]; intros err c w Hw; simpl.
  - unfold finalhandler, finish. repeat case_match; simpl; auto.
  - destruct (matchMount (mount l) (pathname (url c))) as [removed|]; [|by apply IH].
    destruct (enter removed c) as [c1 added].
    unfold keepsWorld in Hl.
    destruct (handler l) as [f|f], err as [e|]; try (by apply IH).
    + specialize (Hl c1 w Hw). destruct (f c1 w) as [w' [c'|e' c'|c']]; simpl in *.
      * by apply IH.
      * by apply IH.
      * unfold finish. case_match; simpl; auto.
    + specialize (Hl e c1 w Hw). destruct (f e c1 w) as [w' [c'|e' c'|c']]; simpl in *.
      * by apply IH.
      * by apply IH.
      * unfold finish. case_match; simpl; auto.
Qed.

(** A property of the response that every layer keeps, and the default
    handler's page keeps, holds of the response that is sent. *)
Lemma dispatch_response_invariant (Q : Response -> Prop) layers :
  (forall code p r, Q r -> Q (page code p r)) ->
  Forall (keepsResponse Q) layers ->
  forall err c w, Q (res c) -> Q (response (dispatch layers err c w)).
Proof.
  intros Hpage Hall. induction Hall as [|l rest Hl _ IH]; intros err c w Hc; simpl.
  - unfold finalhandler, finish. repeat case_match; simpl; auto.
  - destruct (matchMount (mount l) (pathname (url c))) as [removed|]; [|by apply IH].
    pose proof (res_enter removed c) as He.
    destruct (enter removed c) as [c1 added]. simpl in He.
    unfold keepsResponse in Hl.
    destruct (handler l) as [f|f], err as [e|]; try (by apply IH).
    + specialize (Hl c1 w). rewrite He in Hl. specialize (Hl Hc).
      destruct (f c1 w) as [w' [c'|e' c'|c']]; simpl in *.
      * apply IH. by rewrite res_leave.
      * apply IH. by rewrite res_leave.
      * done.
    + specialize (Hl e c1 w). rewrite He in Hl. specialize (Hl Hc).
      destruct (f e c1 w) as [w' [c'|e' c'|c']]; simpl in *.
      * apply IH. by rewrite res_leave.
      * apply IH. by rewrite res_leave.
      * done.
Qed.

End DispatchFacts.

(** ** The error handler *)

Lemma stringify_errorBody : stringify errorBody = errorText.
Proof. reflexivity. Qed.

Lemma errorResponse_status r : statusCode (errorResponse r) = 500.
Proof. unfold errorResponse, sendJson, sendText, defaultType. repeat case_match; reflexivity. Qed.

Lemma errorResponse_payload r : payload (errorResponse r) = Content errorText.
Proof. reflexivity. Qed.

Section ErrorPath.
Context {DB : Type}.

Lemma dispatch_error_layer (e : Error) (c : Ctx) (w : World DB) :
  dispatch [mkLayer ErrorHandler "/" (ErrorMiddleware (errorHandler (DB := DB)))] (Some e) c w =
  visit ErrorHandler Responded
    (finish (withRes c (errorResponse (res c))) (log (Err (stack e)) w)).
Proof. reflexivity. Qed.

(** Request handlers followed by the error handler: as soon as an error
    is pending, or a stage fails, the response is the error handler's. *)
Lemma failure_ends_in_errorHandler (pre : list (Layer DB Stage)) :
  Forall isRequestHandler pre ->
  forall err c w,
    let out := dispatch (pre ++ [mkLayer ErrorHandler "/" (ErrorMiddleware errorHandler)])
                 err c w in
    is_Some err \/ (exists s, (s, Failed) ∈ trace out) ->
    exists r, response out = errorResponse r.
Proof.
  induction 1 as [|l pre Hl Hpre IH]; intros err c w out Hfail.
  - destruct err as [e|].
    + eexists. subst out. rewrite dispatch_error_layer. reflexivity.
    + destruct Hfail as [[? [=]]|[s Hs]]. subst out. simpl in Hs. inversion Hs.
  - subst out. simpl in *.
    destruct (matchMount (mount l) (pathname (url c))) as [removed|]; [|by apply IH].
    destruct (enter removed c) as [c1 added].
    unfold isRequestHandler in Hl.
    destruct (handler l) as [f|f]; [|contradiction].
    destruct err as [e|].
    + apply IH. left. by eexists.
    + destruct (f c1 w) as [w' [c'|e' c'|c']].
      * apply IH. right. destruct Hfail as [[? [=]]|[s Hs]].
        exists s. simpl in Hs. apply elem_of_cons in Hs as [[=]|Hs]. done.
      * apply IH. left. by eexists.
      * destruct Hfail as [[? [=]]|[s Hs]]. simpl in Hs.
        apply elem_of_cons in Hs as [[=]|Hs]. inversion Hs.
Qed.

End ErrorPath.

(** ** The pipeline of [server.js] *)

Section ServerFacts.
Context {DB : Type}.
Context {codec : Codec}.
Variable helmetHeaders : list (string * string).
Variables customersRouter analyticsRouter : Ctx -> DB -> DB * Outcome.

Local Abbreviation layers := (app helmetHeaders customersRouter analyticsRouter).
Local Abbreviation answer := (serve helmetHeaders customersRouter analyticsRouter).

Ltac to_error_handler :=
  repeat (rewrite dispatch_skip_one by exact I); rewrite dispatch_error_layer.

(** one more stateless stage: its three outcomes *)
Ltac stage E :=
  rewrite dispatch_stateless;
  match goal with
  | |- context [match ?o with Next _ => _ | Raise _ _ => _ | Sent _ => _ end] =>
      destruct o eqn:E
  end.

Lemma serve_eq (r : Request) (w : World DB) :
  answer r w = dispatch layers None (initial r) w.
Proof. reflexivity. Qed.

Lemma layers_end_in_errorHandler :
  layers = (take 8 layers ++ [mkLayer ErrorHandler "/" (ErrorMiddleware errorHandler)])%list
  /\ Forall isRequestHandler (take 8 layers).
Proof. split; [reflexivity|]. repeat constructor. Qed.

Lemma serve_reaches (r : Request) (w : World DB) (c : Ctx) :
  upstream helmetHeaders r = Next c ->
  answer r w =
  visit Helmet Passed (visit Cors Passed (visit Morgan Passed
    (visit JsonParser Passed (visit UrlencodedParser Passed
       (dispatch (drop 5 layers) None c w))))).
Proof.
  unfold upstream, serve, handle, app. intros H.
  stage E1; cbn [andThen] in H; try discriminate.
  stage E2; cbn [andThen] in H; try discriminate.
  stage E3; cbn [andThen] in H; try discriminate.
  stage E4; cbn [andThen] in H; try discriminate.
  stage E5; cbn [andThen] in H; try discriminate.
  inversion H; subst. reflexivity.
Qed.

(** A request that does not reach the limiter reaches no router either,
    and leaves the hit counters and the routers' state as they were. *)
Lemma serve_stopped (r : Request) (w : World DB) :
  reachesLimiter helmetHeaders r = false ->
  hits (final (answer r w)) = hits w /\
  db (final (answer r w)) = db w /\
  Forall (fun v => isDownstream v.1 = false) (trace (answer r w)).
Proof.
  unfold reachesLimiter, upstream, serve, handle, app. intros H.
  stage E1; cbn [andThen] in H;
    [ stage E2; cbn [andThen] in H;
      [ stage E3; cbn [andThen] in H;
        [ stage E4; cbn [andThen] in H;
          [ stage E5; cbn [andThen] in H; [discriminate| |] | | ] | | ] | | ] | | ];
    try to_error_handler;
    (split; [|split]);
    try (unfold finish; simpl; case_match; reflexivity);
    repeat constructor.
Qed.

(** The stages before the limiter leave the request and its URL alone. *)
Lemma upstream_route (r : Request) (c : Ctx) :
  upstream helmetHeaders r = Next c -> req c = r /\ url c = target r.
Proof.
  unfold upstream, Helmet.helmet, Cors.cors, Morgan.morgan. cbn [andThen].
  destruct (Cors.isPreflight _); cbn [andThen]; [discriminate|].
  unfold BodyParser.json, BodyParser.urlencoded, BodyParser.ensureBody.
  cbn [andThen bodyRead body withRes withLogOnFinish withBody initial req url].
  repeat (case_match; cbn [andThen bodyRead body withBody req url] in *; try discriminate);
    intros [= <-]; split; reflexivity.
Qed.

(** *** The limiter *)

Lemma limiter_passes (c : Ctx) (w : World DB) :
  hitNumber c w <= 100 ->
  exists c', limiter c w = (counted c w, Next c') /\ req c' = req c /\ url c' = url c.
Proof.
  intros Hn. unfold limiter, RateLimit.rateLimit, RateLimit.incr, counted, hitNumber in *.
  destruct (hits w !! ip (req c)) as [n|] eqn:E; simpl in *.
  - destruct (Nat.ltb_spec 100 (S n)); [lia|]. eexists; split; [reflexivity|]. done.
  - eexists; split; [reflexivity|]. done.
Qed.

Lemma limiter_refuses (c : Ctx) (w : World DB) :
  100 < hitNumber c w ->
  exists c', limiter c w = (counted c w, Sent c') /\
             statusCode (res c') = 429 /\
             payload (res c') =
               Content "Too many requests from this IP, please try again later." /\
             getHeader "Retry-After" (res c') = Some "900".
Proof.
  intros Hn. unfold limiter, RateLimit.rateLimit, RateLimit.incr, counted, hitNumber in *.
  destruct (hits w !! ip (req c)) as [n|] eqn:E; simpl in *; [|lia].
  destruct (Nat.ltb_spec 100 (S n)); [|lia].
  eexists; split; [reflexivity|].
  unfold sendText, defaultType. repeat case_match; simpl; repeat split; try reflexivity.
  all: unfold getHeader, setHeader; simpl.
  all: repeat (rewrite lookup_insert_ne by discriminate).
  all: apply lookup_insert_eq.
Qed.

(** The routers and the error handler do not touch the hit counters. *)
Lemma routes_keep_hits (err : option Error) (c : Ctx) (w : World DB) :
  hits (final (dispatch (drop 6 layers) err c w)) = hits w.
Proof.
  apply (dispatch_final_invariant (fun w' => hits w' = hits w)); [done| |done].
  repeat constructor; unfold keepsWorld; simpl; intros; repeat case_match; simpl; done.
Qed.

(** What handling a request does to the hit counters. *)
Lemma serve_hits (r : Request) (w : World DB) :
  hits (final (answer r w)) =
  if reachesLimiter helmetHeaders r
  then <[ip r := S (default 0 (hits w !! ip r))]> (hits w)
  else hits w.
Proof.
  destruct (reachesLimiter helmetHeaders r) eqn:Hr.
  - unfold reachesLimiter in Hr. destruct (upstream helmetHeaders r) as [c| |] eqn:Hu; try discriminate.
    destruct (upstream_route r c Hu) as [Hreq _].
    rewrite (serve_reaches r w c Hu). cbn [final visit drop app].
    rewrite dispatch_root.
    destruct (le_lt_dec (hitNumber c w) 100) as [Hle|Hlt].
    + destruct (limiter_passes c w Hle) as (c' & -> & _).
      cbn [final visit]. pose proof (routes_keep_hits None c' (counted c w)) as Hk.
      cbn [drop app] in Hk. rewrite Hk.
      unfold counted, hitNumber. rewrite Hreq. reflexivity.
    + destruct (limiter_refuses c w Hlt) as (c' & -> & _).
      cbn [final visit]. unfold finish. cbn [final].
      case_match; unfold counted, hitNumber; rewrite Hreq; reflexivity.
  - by destruct (serve_stopped r w Hr) as [-> _].
Qed.

(** What the limiter decides for a request that reaches it. *)
Lemma serve_verdict (r : Request) (w : World DB) :
  reachesLimiter helmetHeaders r = true ->
  verdict (answer r w) (S (default 0 (hits w !! ip r))).
Proof.
  intros Hr. unfold reachesLimiter in Hr.
  destruct (upstream helmetHeaders r) as [c| |] eqn:Hu; try discriminate.
  destruct (upstream_route r c Hu) as [Hreq _].
  rewrite (serve_reaches r w c Hu). cbn [drop app]. rewrite dispatch_root.
  rewrite <- Hreq. fold (hitNumber c w).
  split; intros Hn.
  - destruct (limiter_passes c w Hn) as (c' & -> & _).
    cbn [trace visit]. repeat constructor.
  - destruct (limiter_refuses c w Hn) as (c' & -> & Hs & Hp & _).
    cbn [trace visit response]. unfold finish. cbn [trace response]. done.
Qed.

End ServerFacts.

(** * Further properties *)

(** ** Texts *)

Lemma string_app_cons (x : ascii) (a b : string) : String x a ++ b = String x (a ++ b).
Proof. reflexivity. Qed.

Lemma string_app_assoc (a b c : string) : (a ++ b) ++ c = a ++ (b ++ c).
Proof.
  induction a as [|x a IH]; [reflexivity|]. rewrite !string_app_cons. by f_equal.
Qed.

Lemma slice_length_app (a b : string) : slice (String.length a) (a ++ b) = b.
Proof.
  induction a as [|x a IH]; [by destruct b|]. rewrite string_app_cons. exact IH.
Qed.

Lemma substring_slice (k : nat) (s : string) : substring 0 k s ++ slice k s = s.
Proof.
  revert s. induction k as [|k IH]; intros s.
  - destruct s; reflexivity.
  - destruct s as [|x s]; [reflexivity|].
    cbn [substring slice]. rewrite string_app_cons. f_equal. apply IH.
Qed.

Lemma before_split (stop : ascii) (s : string) : exists q, s = before stop s ++ q.
Proof.
  induction s as [|x s [q IH]]; cbn [before].
  - by exists EmptyString.
  - destruct (Ascii.eqb x stop).
    + by exists (String x s).
    + exists q. rewrite string_app_cons. by f_equal.
Qed.

Lemma lowerChar_not_question (c : ascii) :
  lowerChar c <> "?"%char -> Ascii.eqb c "?" = false.
Proof.
  destruct c as [[] [] [] [] [] [] [] []]; vm_compute; intros H; first [reflexivity | by destruct H].
Qed.

(** ** The stages before the limiter *)

(** Neither body parser answers a request itself, and neither touches
    anything of the context but [req.body]. *)
Lemma json_never_sends {codec : Codec} (c c' : Ctx) : BodyParser.json c <> Sent c'.
Proof. unfold BodyParser.json. repeat case_match; discriminate. Qed.

Lemma urlencoded_never_sends {codec : Codec} (c c' : Ctx) : BodyParser.urlencoded c <> Sent c'.
Proof. unfold BodyParser.urlencoded. repeat case_match; discriminate. Qed.

Lemma json_keeps {codec : Codec} (c : Ctx) :
  let c' := ctxOf (BodyParser.json c) in
  req c' = req c /\ url c' = url c /\ res c' = res c /\ logOnFinish c' = logOnFinish c.
Proof.
  unfold BodyParser.json, BodyParser.ensureBody. repeat case_match; repeat split.
Qed.

Lemma urlencoded_keeps {codec : Codec} (c : Ctx) :
  let c' := ctxOf (BodyParser.urlencoded c) in
  req c' = req c /\ url c' = url c /\ res c' = res c /\ logOnFinish c' = logOnFinish c.
Proof.
  unfold BodyParser.urlencoded, BodyParser.ensureBody. repeat case_match; repeat split.
Qed.

(** Reading a header back. *)
Lemma getHeader_setHeader_eq (n v : string) (r : Response) :
  getHeader n (setHeader n v r) = Some v.
Proof. unfold getHeader, setHeader. cbn [resHeaders]. apply lookup_insert_eq. Qed.

Lemma getHeader_setHeader_ne (k n v : string) (r : Response) :
  toLowerCase k <> toLowerCase n -> getHeader k (setHeader n v r) = getHeader k r.
Proof.
  intros Hk. unfold getHeader, setHeader. cbn [resHeaders]. by rewrite lookup_insert_ne.
Qed.

Lemma getHeader_removeHeader_ne (k n : string) (r : Response) :
  toLowerCase k <> toLowerCase n -> getHeader k (removeHeader n r) = getHeader k r.
Proof.
  intros Hk. unfold getHeader, removeHeader. cbn [resHeaders]. by rewrite lookup_delete_ne.
Qed.

Lemma getHeader_setStatus (k : string) (code : nat) (r : Response) :
  getHeader k (setStatus code r) = getHeader k r.
Proof. reflexivity. Qed.

Lemma getHeader_setPayload (k : string) (p : Payload) (r : Response) :
  getHeader k (setPayload p r) = getHeader k r.
Proof. reflexivity. Qed.

(** [vary] writes the Vary header only *)
Lemma getHeader_vary (k field : string) (r : Response) :
  toLowerCase k <> "vary" -> getHeader k (Cors.vary field r) = getHeader k r.
Proof.
  intros Hk. unfold Cors.vary. repeat case_match; try reflexivity.
  all: by apply getHeader_setHeader_ne.
Qed.

(** two header names that differ, by computation *)
Ltac names_differ :=
  let H := fresh in intros H; vm_compute in H; discriminate H.

Ltac read_header :=
  repeat first
    [ rewrite getHeader_setPayload
    | rewrite getHeader_setStatus
    | rewrite getHeader_setHeader_ne by names_differ
    | rewrite getHeader_removeHeader_ne by names_differ
    | rewrite getHeader_vary by names_differ
    | rewrite getHeader_setHeader_eq ].

Section Upstream.
Context {DB : Type}.
Context {codec : Codec}.
Variable helmetHeaders : list (string * string).
Variables customersRouter analyticsRouter : Ctx -> DB -> DB * Outcome.

Local Abbreviation layers := (app helmetHeaders customersRouter analyticsRouter).
Local Abbreviation answer := (serve helmetHeaders customersRouter analyticsRouter).

Local Abbreviation afterMorgan := (afterMorgan helmetHeaders).

Lemma serve_after_morgan (r : Request) (w : World DB) :
  Cors.isPreflight r = false ->
  answer r w =
  visit Helmet Passed (visit Cors Passed (visit Morgan Passed
    (dispatch (drop 3 layers) None (afterMorgan r) w))).
Proof.
  intros Hpre. rewrite serve_eq. unfold app.
  rewrite dispatch_stateless. unfold Helmet.helmet.
  rewrite dispatch_stateless. unfold Cors.cors. cbn [req withRes initial]. rewrite Hpre.
  rewrite dispatch_stateless. unfold Morgan.morgan. reflexivity.
Qed.

Lemma upstream_after_morgan (r : Request) :
  Cors.isPreflight r = false ->
  upstream helmetHeaders r
  = andThen (BodyParser.json (afterMorgan r)) BodyParser.urlencoded.
Proof.
  intros Hpre. unfold upstream, Helmet.helmet, Cors.cors, Morgan.morgan. cbn [andThen].
  cbn [req withRes initial]. rewrite Hpre. reflexivity.
Qed.

Lemma upstream_preflight (r : Request) :
  Cors.isPreflight r = true -> reachesLimiter helmetHeaders r = false.
Proof.
  intros Hpre. unfold reachesLimiter, upstream, Helmet.helmet, Cors.cors. cbn [andThen].
  cbn [req withRes initial]. rewrite Hpre. reflexivity.
Qed.

(** What reaches the limiter is the request itself, with morgan
    subscribed. *)
Lemma upstream_ctx (r : Request) (c : Ctx) :
  upstream helmetHeaders r = Next c ->
  Cors.isPreflight r = false /\ req c = r /\ url c = target r /\
  logOnFinish c = true /\ res c = res (afterMorgan r).
Proof.
  intros Hu. destruct (Cors.isPreflight r) eqn:Hpre.
  { pose proof (upstream_preflight r Hpre) as H. unfold reachesLimiter in H.
    by rewrite Hu in H. }
  split; [reflexivity|]. rewrite (upstream_after_morgan r Hpre) in Hu.
  pose proof (json_keeps (afterMorgan r)) as Hj.
  destruct (BodyParser.json (afterMorgan r)) as [c1| |]; cbn [andThen] in Hu; try discriminate.
  pose proof (urlencoded_keeps c1) as Hf. rewrite Hu in Hf. cbn [ctxOf] in Hj, Hf.
  destruct Hj as (-> & -> & -> & ->) in Hf. destruct Hf as (-> & -> & -> & ->).
  repeat split.
Qed.

End Upstream.

(** ** Failures and the error handler *)

(** C2.  When a stage fails while a request is handled (a route handler
    or a stage before it calls [next(err)] or throws), the response is the
    error handler's: status 500 and exactly the body
    [{"status":"error","message":"An internal error occurred. Please try
    again later."}].  What the error handler sends does not depend on the
    error it is given: two different failures give the same response; the
    error only goes to the console. *)
Theorem failure_gets_generic_500 {DB : Type} {codec : Codec} (helmetHeaders : list (string * string))
  (customersRouter analyticsRouter : Ctx -> DB -> DB * Outcome)
  (r : Request) (w : World DB) :
  let out := serve helmetHeaders customersRouter analyticsRouter r w in
  (exists s, (s, Failed) ∈ trace out) ->
  statusCode (response out) = 500 /\
  payload (response out) = Content errorText /\
  stringify errorBody = errorText /\
  forall (e1 e2 : Error) (c : Ctx) (w' : World DB),
    (errorHandler e1 c w').2 = (errorHandler e2 c w').2 /\
    console (errorHandler e1 c w').1 = (console w' ++ [Err (stack e1)])%list.
Proof.
  intros out. unfold out. clear out. rewrite serve_eq. intros Hfail.
  destruct (layers_end_in_errorHandler helmetHeaders customersRouter analyticsRouter)
    as [Happ Hpre].
  destruct (failure_ends_in_errorHandler _ Hpre None (initial r) w) as [r0 Hr0].
  { right. rewrite <- Happ. exact Hfail. }
  rewrite <- Happ in Hr0.
  rewrite Hr0, errorResponse_status, errorResponse_payload.
  repeat split.
Qed.

(** A body that is not empty and is not JSON is rejected by the parser
    of [express.json()]. *)
Lemma parseJson_rejects (text : string) :
  text <> EmptyString -> parse text = None -> BodyParser.parseJson text = None.
Proof.
  intros Hne Hparse. unfold BodyParser.parseJson. rewrite Hparse.
  destruct text; [contradiction|]. repeat case_match; reflexivity.
Qed.

(** C1, as the code has it.  A request other than a CORS preflight whose
    Content-Type is [application/json] and whose body, once its content
    coding is undone and its bytes are decoded, is a text that is not
    empty and is not JSON: the parser hands the failure to Express, so
    that neither the second body parser, the limiter nor a router runs,
    and the hit counters and the routers' state stay as they were; but
    the failure is answered by the error handler of the application, with
    status 500 and the generic body, not with a client error. *)
Theorem malformed_json_gets_generic_500 {DB : Type} {codec : Codec} (helmetHeaders : list (string * string))
  (customersRouter analyticsRouter : Ctx -> DB -> DB * Outcome)
  (r : Request) (w : World DB) (text : string) :
  Cors.isPreflight r = false ->
  BodyParser.typeis r "application/json" = true ->
  BodyParser.read (BodyParser.getCharset r) r = inr text ->
  text <> EmptyString ->
  parse text = None ->
  let out := serve helmetHeaders customersRouter analyticsRouter r w in
  trace out = [(Helmet, Passed); (Cors, Passed); (Morgan, Passed);
               (JsonParser, Failed); (ErrorHandler, Responded)] /\
  statusCode (response out) = 500 /\
  payload (response out) = Content errorText /\
  hits (final out) = hits w /\
  db (final out) = db w.
Proof.
  intros Hpre Htype Hread Hbody Hjson out. unfold out. clear out.
  pose proof (parseJson_rejects _ Hbody Hjson) as Hparse.
  rewrite serve_eq. unfold app.
  rewrite dispatch_stateless. unfold Helmet.helmet.
  rewrite dispatch_stateless. unfold Cors.cors.
  cbn [req withRes initial]. rewrite Hpre.
  rewrite dispatch_stateless. unfold Morgan.morgan.
  rewrite dispatch_stateless. unfold BodyParser.json.
  cbn [bodyRead req withRes withLogOnFinish initial].
  rewrite Htype, Hread, Hparse. cbn [negb].
  assert (Hend : forall (e : Error) (c : Ctx),
    let o := visit Helmet Passed (visit Cors Passed (visit Morgan Passed
               (visit JsonParser Failed
                  (dispatch (drop 4 (app helmetHeaders customersRouter analyticsRouter))
                     (Some e) c w)))) in
    trace o = [(Helmet, Passed); (Cors, Passed); (Morgan, Passed);
               (JsonParser, Failed); (ErrorHandler, Responded)] /\
    statusCode (response o) = 500 /\ payload (response o) = Content errorText /\
    hits (final o) = hits w /\ db (final o) = db w).
  { intros e c o. subst o. cbn [drop app].
    repeat (rewrite dispatch_skip_one by exact I). rewrite dispatch_error_layer.
    cbn [trace response final visit finish res withRes]. rewrite errorResponse_status.
    repeat split. all: case_match; reflexivity. }
  destruct (negb (startsWith "utf-" (BodyParser.getCharset r))); apply Hend.
Qed.

(** ** Order of the stages *)

Section Sequence.
Context {DB : Type}.

Lemma asLayers_request_handlers
  (stages : list (Stage * (Ctx -> World DB -> World DB * Outcome))) :
  Forall isRequestHandler (asLayers stages).
Proof. induction stages as [|[s f] stages IH]; by constructor. Qed.

Lemma precededBy_cons (v : Stage * Step) steps (out : Result DB Stage) :
  visit v.1 v.2 (precededBy steps out) = precededBy (v :: steps) out.
Proof. by destruct v. Qed.

(** Express runs layers mounted at the root in sequence: each one on
    what the one before passed on; after a failure the remaining ones are
    skipped, and after an answer nothing runs. *)
Lemma dispatch_inSequence
  (stages : list (Stage * (Ctx -> World DB -> World DB * Outcome)))
  (rest : list (Layer DB Stage)) :
  forall c w,
    dispatch (asLayers stages ++ rest) None c w =
    match inSequence stages c w with
    | (steps, w', Next c') => precededBy steps (dispatch rest None c' w')
    | (steps, w', Raise e c') => precededBy steps (dispatch rest (Some e) c' w')
    | (steps, w', Sent c') => precededBy steps (finish c' w')
    end.
Proof.
  assert (Hid : forall out : Result DB Stage, precededBy [] out = out) by (by intros []).
  induction stages as [|[s f] stages IH]; intros c w.
  - cbn [asLayers fmap list_fmap List.app inSequence]. by rewrite Hid.
  - cbn [asLayers fmap list_fmap List.app inSequence fst snd].
    rewrite dispatch_root. fold (asLayers stages).
    destruct (f c w) as [w' [c'|e c'|c']].
    + rewrite IH. destruct (inSequence stages c' w') as [[steps w''] [c''|e c''|c'']];
        apply (precededBy_cons (s, Passed)).
    + rewrite (dispatch_skips_request_handlers _ _ _ _ _ (asLayers_request_handlers stages)).
      apply (precededBy_cons (s, Failed) []).
    + rewrite <- (Hid (finish c' w')) at 1. apply (precededBy_cons (s, Responded) []).
Qed.

End Sequence.

(** C6.  For every request the middleware executes strictly in the
    declared sequence: the answer of the server is the one obtained by
    running helmet, cors, morgan, the JSON parser, the form parser and
    the limiter one after the other, in this order, each on the request
    and the state as the stage before left them.  Only when all six have
    called [next()] are the routers dispatched, on what the limiter
    passed on; when one of them fails, the stages after it are skipped and
    the error handler answers; when one of them answers, nothing runs
    after it. *)
Theorem stages_run_in_declared_order {DB : Type} {codec : Codec}
  (helmetHeaders : list (string * string))
  (customersRouter analyticsRouter : Ctx -> DB -> DB * Outcome)
  (r : Request) (w : World DB) :
  let out := serve helmetHeaders customersRouter analyticsRouter r w in
  let routes := drop 6 (app helmetHeaders customersRouter analyticsRouter) in
  match inSequence (declaredMiddleware helmetHeaders) (initial r) w with
  | (steps, w', Next c') =>
      steps = allPassed middleware /\
      out = precededBy steps (dispatch routes None c' w')
  | (steps, w', Raise e c') =>
      (exists k, k < 6 /\ steps = (allPassed (take k middleware) ++ [(nth k middleware Helmet, Failed)])%list) /\
      out = precededBy steps
              (visit ErrorHandler Responded
                 (finish (withRes c' (errorResponse (res c'))) (log (Err (stack e)) w')))
  | (steps, w', Sent c') =>
      (exists k, k < 6 /\ steps = (allPassed (take k middleware) ++ [(nth k middleware Helmet, Responded)])%list) /\
      out = precededBy steps (finish c' w')
  end.
Proof.
  intros out routes. subst out routes.
  pose proof (dispatch_inSequence (declaredMiddleware helmetHeaders)
                (drop 6 (app helmetHeaders customersRouter analyticsRouter))
                (initial r) w) as Hout.
  change (asLayers (declaredMiddleware helmetHeaders)
          ++ drop 6 (app helmetHeaders customersRouter analyticsRouter))%list
    with (app helmetHeaders customersRouter analyticsRouter) in Hout.
  rewrite serve_eq, Hout. clear Hout.
  assert (Hshape : forall (stages : list (Stage * (Ctx -> World DB -> World DB * Outcome))) c0 w0,
             match inSequence stages c0 w0 with
             | (steps, _, Next _) => steps = allPassed stages.*1
             | (steps, _, Raise _ _) =>
                 exists k, k < length stages /\
                   steps = (allPassed (take k stages.*1) ++ [(nth k stages.*1 Helmet, Failed)])%list
             | (steps, _, Sent _) =>
                 exists k, k < length stages /\
                   steps = (allPassed (take k stages.*1) ++ [(nth k stages.*1 Helmet, Responded)])%list
             end).
  { induction stages as [|[s f] stages IH]; intros c0 w0; [reflexivity|].
    cbn [inSequence]. destruct (f c0 w0) as [w1 [c1|e c1|c1]].
    - specialize (IH c1 w1).
      destruct (inSequence stages c1 w1) as [[steps w2] [c2|e c2|c2]].
      + by rewrite IH.
      + destruct IH as (k & Hk & ->). exists (S k). split; [cbn; lia|reflexivity].
      + destruct IH as (k & Hk & ->). exists (S k). split; [cbn; lia|reflexivity].
    - exists 0. split; [cbn; lia|reflexivity].
    - exists 0. split; [cbn; lia|reflexivity]. }
  specialize (Hshape (declaredMiddleware helmetHeaders) (initial r) w).
  destruct (inSequence (declaredMiddleware helmetHeaders) (initial r) w)
    as [[steps w'] [c'|e c'|c']].
  - split; [exact Hshape|reflexivity].
  - split; [exact Hshape|]. cbn [drop app].
    repeat (rewrite dispatch_skip_one by exact I). by rewrite dispatch_error_layer.
  - split; [exact Hshape|reflexivity].
Qed.

(** ** Requests that match no route *)

(** C7, as the code has it.  A request with a plain target whose path
    matches neither mount point, that passes the stages before the
    limiter and is within its client's quota, gets the default not-found
    response of Express: status 404 and the page that names the method
    and the path; no router runs. *)
Theorem unmatched_path_gets_404 {DB : Type} {codec : Codec} (helmetHeaders : list (string * string))
  (customersRouter analyticsRouter : Ctx -> DB -> DB * Outcome)
  (r : Request) (w : World DB) :
  plainTarget (target r) = true ->
  noRouteMatches r ->
  reachesLimiter helmetHeaders r = true ->
  default 0 (hits w !! ip r) < 100 ->
  let out := serve helmetHeaders customersRouter analyticsRouter r w in
  statusCode (response out) = 404 /\
  payload (response out) = NotFoundPage (method r) (pathname (target r)) /\
  trace out = allPassed middleware.
Proof.
  intros _ [Hc Ha] Hr Hn out. subst out. unfold reachesLimiter in Hr.
  destruct (upstream helmetHeaders r) as [c| |] eqn:Hu; try discriminate.
  destruct (upstream_route _ r c Hu) as [Hreq Hurl].
  rewrite (serve_reaches _ _ _ r w c Hu). cbn [drop app]. rewrite dispatch_root.
  destruct (limiter_passes c w) as (c' & -> & Hreq' & Hurl').
  { unfold hitNumber. rewrite Hreq. lia. }
  cbn [dispatch mount]. rewrite Hurl', Hurl, Hc, Ha.
  cbn -[page pathname]. rewrite Hreq', Hreq. repeat split.
Qed.

(** ** The limiter over time *)

Lemma window_mono (t1 t2 : Z) : (t1 <= t2)%Z -> (window t1 <= window t2)%Z.
Proof. intros H. unfold window. apply Z.div_le_mono; [reflexivity | exact H]. Qed.

Lemma hitsInWindow_app {codec : Codec} configured k client (l1 l2 : list (Z * Request)) :
  hitsInWindow configured k client (l1 ++ l2) =
  hitsInWindow configured k client l1 + hitsInWindow configured k client l2.
Proof. unfold hitsInWindow. by rewrite List.filter_app, List.length_app. Qed.

(** Arrivals of earlier windows do not count. *)
Lemma hitsInWindow_earlier {codec : Codec} configured k client (past : list (Z * Request)) (lo : Z) :
  Forall (fun a => (a.1 <= lo)%Z) past ->
  (window lo < k)%Z ->
  hitsInWindow configured k client past = 0.
Proof.
  intros Hpast Hk. unfold hitsInWindow.
  induction Hpast as [|a past Ha _ IH]; [reflexivity|]. simpl.
  unfold countsFor at 1.
  destruct (Z.eqb_spec (window a.1) k) as [He|_]; [|exact IH].
  pose proof (window_mono _ _ Ha). lia.
Qed.

Section Timeline.
Context {DB : Type}.
Context {codec : Codec}.
Variable helmetHeaders : list (string * string).
Variables customersRouter analyticsRouter : Ctx -> DB -> DB * Outcome.

Local Abbreviation answer := (serve helmetHeaders customersRouter analyticsRouter).
Local Abbreviation arrives := (arrive helmetHeaders customersRouter analyticsRouter).
Local Abbreviation runs := (run helmetHeaders customersRouter analyticsRouter).

(** One arrival: the state stays up to date, and a request that reaches
    the limiter gets the verdict of its number in its window. *)
Lemma arrive_upToDate (s : Server) (past : list (Z * Request)) (lo t : Z) (r : Request) :
  upToDate helmetHeaders s past lo ->
  (lo <= t)%Z ->
  upToDate helmetHeaders (arrives t r s).1 (past ++ [(t, r)]) t /\
  (reachesLimiter helmetHeaders r = true ->
   verdict (arrives t r s).2
     (hitsInWindow helmetHeaders (window t) (ip r) (past ++ [(t, r)]))).
Proof.
  intros (Hlo & Hfired & Hpast & Hhits) Hle.
  pose proof (window_mono _ _ Hle) as Hw.
  unfold arrive. cbn [fst snd world fired].
  set (w := if (fired s <? window t)%Z then _ else _).
  assert (Hcur : forall client,
             default 0 (hits w !! client)
             = hitsInWindow helmetHeaders (window t) client past).
  { intros client. subst w. destruct (Z.ltb_spec (fired s) (window t)) as [Hlt|Hge].
    - cbn [hits withHits]. unfold RateLimit.resetAll. rewrite lookup_empty. simpl.
      symmetry. apply (hitsInWindow_earlier _ _ _ _ lo Hpast). lia.
    - replace (window t) with (fired s) by lia. apply Hhits. }
  assert (Hmax : Z.max (fired s) (window t) = window t) by lia.
  split.
  - repeat split.
    + lia.
    + exact Hmax.
    + apply Forall_app. split; [|by repeat constructor].
      eapply Forall_impl; [exact Hpast|]. simpl. intros; lia.
    + intros client. cbn [fired world]. rewrite Hmax, serve_hits, hitsInWindow_app.
      unfold hitsInWindow at 2. cbn [List.filter]. unfold countsFor at 1. cbn [fst snd].
      rewrite Z.eqb_refl. cbn [andb].
      destruct (reachesLimiter helmetHeaders r).
      * destruct (String.eqb_spec (ip r) client) as [->|Hne].
        -- rewrite lookup_insert_eq. simpl. rewrite Hcur. lia.
        -- rewrite lookup_insert_ne by done. rewrite Hcur. simpl. lia.
      * rewrite Bool.andb_false_r. simpl. rewrite Hcur. lia.
  - intros Hr. rewrite hitsInWindow_app.
    unfold hitsInWindow at 2. cbn [List.filter]. unfold countsFor at 1. cbn [fst snd].
    rewrite Z.eqb_refl, String.eqb_refl, Hr. cbn [andb length].
    rewrite <- Hcur. replace (default 0 (hits w !! ip r) + 1) with
      (S (default 0 (hits w !! ip r))) by lia.
    by apply serve_verdict.
Qed.

Lemma run_verdicts (arrivals : list (Z * Request)) :
  forall (s : Server) (past : list (Z * Request)) (lo : Z),
    upToDate helmetHeaders s past lo ->
    chronological lo arrivals ->
    forall (i : nat) (t : Z) (r : Request),
      arrivals !! i = Some (t, r) ->
      reachesLimiter helmetHeaders r = true ->
      exists out,
        runs s arrivals !! i = Some out /\
        verdict out
          (hitsInWindow helmetHeaders (window t) (ip r) (past ++ take (S i) arrivals)).
Proof.
  induction arrivals as [|[t0 r0] rest IH]; intros s past lo Hs Hchr i t r Hi Hr.
  - by rewrite lookup_nil in Hi.
  - destruct Hchr as [Hle Hchr].
    destruct (arrive_upToDate s past lo t0 r0 Hs Hle) as [Hs' Hv].
    cbn [run]. destruct (arrives t0 r0 s) as [s' out0] eqn:Ha. cbn [fst snd] in *.
    destruct i as [|i].
    + injection Hi as -> ->. exists out0. split; [reflexivity|]. by apply Hv.
    + destruct (IH s' (past ++ [(t0, r0)])%list t0 Hs' Hchr i t r Hi Hr) as (out & Ho & Hvo).
      exists out. split; [exact Ho|].
      rewrite <- app_assoc in Hvo. exact Hvo.
Qed.

End Timeline.

(** C3, as the code has it.  The limiter counts the requests of a
    client that reach it (a preflight or a rejected body does not) in
    windows of 15 minutes, fixed from the start of the process: [window t]
    is [t / (15 * 60 * 1000)].  For a request that reaches the limiter,
    let [n] be its number among the requests of its client counted in its
    window.  When [n] is at most 100 the limiter calls [next()]; when it
    is above 100 (the 101st and every later one) the limiter answers at
    once, with status 429 and the message, and no stage after it runs. *)
Theorem limiter_fixed_window {DB : Type} {codec : Codec} (helmetHeaders : list (string * string))
  (customersRouter analyticsRouter : Ctx -> DB -> DB * Outcome) (d : DB)
  (arrivals : list (Z * Request)) (i : nat) (t : Z) (r : Request) :
  chronological 0 arrivals ->
  arrivals !! i = Some (t, r) ->
  reachesLimiter helmetHeaders r = true ->
  exists out,
    run helmetHeaders customersRouter analyticsRouter (boot d) arrivals !! i = Some out /\
    window t = (t / (15 * 60 * 1000))%Z /\
    RateLimit.max limiterOptions = 100 /\
    let n := hitsInWindow helmetHeaders (window t) (ip r) (take (S i) arrivals) in
    (n <= 100 -> (RateLimiter, Passed) ∈ trace out) /\
    (100 < n ->
     trace out = (allPassed [Helmet; Cors; Morgan; JsonParser; UrlencodedParser]
                  ++ [(RateLimiter, Responded)])%list /\
     statusCode (response out) = 429 /\
     isClientError (statusCode (response out)) /\
     payload (response out) =
       Content "Too many requests from this IP, please try again later.").
Proof.
  intros Hchr Hi Hr.
  destruct (run_verdicts helmetHeaders customersRouter analyticsRouter arrivals
              (boot d) [] 0%Z) with (i := i) (t := t) (r := r)
    as (out & Ho & Hpass & Hrefuse); try done.
  cbn [List.app] in Hpass, Hrefuse.
  exists out. split; [exact Ho|]. split; [reflexivity|]. split; [reflexivity|].
  cbn zeta. split; [exact Hpass|].
  intros Hn. destruct (Hrefuse Hn) as (Ht & Hs & Hp).
  repeat split; try done. all: rewrite Hs; unfold isClientError; lia.
Qed.

(** ** Security headers *)

Section Carries.
Variable configured : list (string * string).
Hypothesis Hsec : securityOnly configured.

(** A stage that writes one of its own headers leaves the configured
    ones as they are. *)
Lemma carries_setHeader n v r :
  toLowerCase n ∈ writtenByStages ->
  carries configured r -> carries configured (setHeader n v r).
Proof.
  intros Hn H. unfold carries, securityOnly in *. rewrite Forall_forall in *.
  intros nv Hin. rewrite getHeader_setHeader_ne; [by apply H|].
  intros E. apply (Hsec nv Hin). by rewrite E.
Qed.

Lemma carries_defaultType t r :
  carries configured r -> carries configured (defaultType t r).
Proof. unfold defaultType. case_match; [done|]. apply carries_setHeader. compute_done. Qed.

Lemma carries_sendText text r :
  carries configured r -> carries configured (sendText text r).
Proof.
  intros H. unfold sendText. apply carries_setHeader; [compute_done|].
  by apply carries_defaultType.
Qed.

Lemma carries_sendJson v r :
  carries configured r -> carries configured (sendJson v r).
Proof. intros H. unfold sendJson. by apply carries_sendText, carries_defaultType. Qed.

Lemma carries_vary field r :
  carries configured r -> carries configured (Cors.vary field r).
Proof.
  intros H. unfold Cors.vary.
  repeat case_match; try done; apply carries_setHeader; try done; compute_done.
Qed.

Lemma carries_cors c :
  carries configured (res c) -> carries configured (res (ctxOf (Cors.cors c))).
Proof.
  intros H. unfold Cors.cors, Cors.allowHeaders, Cors.allowMethods, Cors.allowOrigin.
  repeat case_match; cbn [ctxOf res withRes];
    repeat first [ exact H
                 | apply carries_vary
                 | apply carries_setHeader; [compute_done|] ].
Qed.

Lemma carries_limiter {DB : Type} c (w : World DB) :
  carries configured (res c) -> carries configured (res (ctxOf (limiter c w).2)).
Proof.
  intros H. unfold limiter, RateLimit.rateLimit.
  destruct (RateLimit.incr _ _) as [h n].
  case_match; cbn [snd ctxOf res withRes withRateLimit];
    repeat first [ exact H
                 | apply carries_sendText
                 | apply carries_setHeader; [compute_done|] ].
Qed.

(** The default handler's page: its own two security headers, and the
    other configured headers as they were. *)
Lemma carries_page code p r :
  carries configured r -> carries (onDefaultPage <$> configured) (page code p r).
Proof.
  unfold securityOnly, carries in *. rewrite !Forall_forall in *.
  intros Hr nv' (nv & -> & Hin)%list_elem_of_fmap_1.
  specialize (Hsec nv Hin). specialize (Hr nv Hin).
  unfold onDefaultPage, page.
  destruct (String.eqb_spec (toLowerCase nv.1) "content-security-policy") as [E1|E1];
    [|destruct (String.eqb_spec (toLowerCase nv.1) "x-content-type-options") as [E2|E2]];
    cbn [fst snd]; unfold getHeader, setPayload, setHeader, removeHeader, setStatus in *;
    cbn [resHeaders] in *.
  - rewrite E1. vm_compute toLowerCase.
    rewrite lookup_insert_ne by discriminate. rewrite lookup_insert_ne by discriminate.
    by rewrite lookup_insert_eq.
  - rewrite E2. vm_compute toLowerCase.
    rewrite lookup_insert_ne by discriminate. by rewrite lookup_insert_eq.
  - vm_compute (toLowerCase "Content-Type"). vm_compute (toLowerCase "X-Content-Type-Options").
    vm_compute (toLowerCase "Content-Security-Policy").
    vm_compute (toLowerCase "Content-Range"). vm_compute (toLowerCase "Content-Language").
    vm_compute (toLowerCase "Content-Encoding").
    rewrite lookup_insert_ne by (intros E; apply Hsec; rewrite <- E; compute_done).
    rewrite lookup_insert_ne by (intros E; by apply E2).
    rewrite lookup_insert_ne by (intros E; by apply E1).
    rewrite !lookup_delete_ne by (intros E; apply Hsec; rewrite <- E; compute_done).
    exact Hr.
Qed.

End Carries.

(** helmet puts every configured header on the response, with its value *)
Lemma helmet_carries (configured : list (string * string)) :
  distinctNames configured ->
  forall r, carries configured (Helmet.setAll configured r).
Proof.
  assert (Hkeep : forall (conf : list (string * string)) k v r,
             toLowerCase k ∉ (fun nv => toLowerCase nv.1) <$> conf ->
             getHeader k r = Some v -> getHeader k (Helmet.setAll conf r) = Some v).
  { unfold Helmet.setAll. induction conf as [|a conf IH]; intros k v r Hk Hr; [exact Hr|].
    cbn [fold_left]. rewrite fmap_cons in Hk. apply not_elem_of_cons in Hk as [Hka Hk].
    apply IH; [exact Hk|]. by rewrite getHeader_setHeader_ne. }
  unfold carries, distinctNames. induction configured as [|a conf IH]; intros Hnd r;
    [constructor|]. rewrite fmap_cons in Hnd. apply NoDup_cons in Hnd as [Ha Hnd].
  constructor.
  - unfold Helmet.setAll. cbn [fold_left]. apply Hkeep; [exact Ha|].
    apply getHeader_setHeader_eq.
  - apply (IH Hnd (setHeader a.1 a.2 r)).
Qed.

Section AnswerCases.
Context {DB : Type}.

(** Request handlers followed by the error handler, all of which keep
    a property of the response: the response that is sent has the
    property, or it is the not-found page written over a response that
    has it. *)
Lemma dispatch_answer_cases (Q : Response -> Prop) (pre : list (Layer DB Stage)) :
  Forall isRequestHandler pre ->
  Forall (keepsResponse Q) pre ->
  (forall r, Q r -> Q (errorResponse r)) ->
  forall err c w, Q (res c) ->
    let out := dispatch (pre ++ [mkLayer ErrorHandler "/" (ErrorMiddleware errorHandler)])
                 err c w in
    Q (response out) \/
    exists verb path r0, Q r0 /\ response out = page 404 (NotFoundPage verb path) r0.
Proof.
  intros Hpre Hall Herr. induction Hpre as [|l pre Hl _ IH]; intros err c w Hc out; subst out.
  - destruct err as [e|].
    + left. cbn [List.app]. rewrite dispatch_error_layer. cbn [response visit finish res withRes].
      by apply Herr.
    + right. eexists _, _, (res c). split; [exact Hc|]. reflexivity.
  - apply Forall_cons in Hall as [Hk Hall]. specialize (IH Hall).
    cbn [List.app dispatch].
    destruct (matchMount (mount l) (pathname (url c))) as [removed|]; [|by apply IH].
    pose proof (res_enter removed c) as He.
    destruct (enter removed c) as [c1 added]. cbn [fst] in He.
    unfold isRequestHandler in Hl. unfold keepsResponse in Hk.
    destruct (handler l) as [f|f]; [|contradiction].
    destruct err as [e|]; [by apply IH|].
    specialize (Hk c1 w). rewrite He in Hk. specialize (Hk Hc).
    destruct (f c1 w) as [w' [c'|e' c'|c']]; cbn [snd ctxOf] in Hk.
    + cbn [response visit]. apply IH. by rewrite res_leave.
    + cbn [response visit]. apply IH. by rewrite res_leave.
    + left. cbn [response visit finish]. exact Hk.
Qed.

End AnswerCases.

(** ** Start-up *)

Section StartupFacts.
Import Startup.

Lemma deliver_keeps (e : Event) (p : Process) :
  env (deliver e p) = env p /\
  connects (deliver e p) = connects p /\
  listening (deliver e p) = listening p /\
  state (deliver e p) = state p.
Proof. destruct e; repeat split. Qed.

Lemma run_snoc environment file events e :
  run environment file (events ++ [e])
  = whenRunning (deliver e) (run environment file events).
Proof. unfold run. by rewrite fold_left_app. Qed.

(** Nothing the event loop delivers changes the environment, the
    connection attempts made, what the socket was asked for or whether
    the script runs. *)
Lemma run_keeps environment file events :
  env (run environment file events) = env (main environment file) /\
  connects (run environment file events) = connects (main environment file) /\
  listening (run environment file events) = listening (main environment file) /\
  state (run environment file events) = state (main environment file).
Proof.
  induction events as [|e events IH] using rev_ind; [repeat split|].
  rewrite run_snoc. unfold whenRunning. destruct IH as (H1 & H2 & H3 & H4).
  destruct (state (run environment file events)) eqn:Hs.
  - destruct (deliver_keeps e (run environment file events)) as (-> & -> & -> & ->).
    by rewrite Hs.
  - by rewrite Hs.
  - by rewrite Hs.
Qed.

Lemma env_main environment file :
  env (main environment file) = Dotenv.config environment file.
Proof.
  unfold main, mongoose_connect, whenRunning, app_listen, listen, throw.
  repeat case_match; reflexivity.
Qed.

(** With a connection string, the script reaches [app.listen]. *)
Lemma main_connected environment file uri :
  Dotenv.config environment file !! "MONGO_URI" = Some uri ->
  main environment file
  = app_listen (PORT (Dotenv.config environment file))
      (mkProcess (Dotenv.config environment file) [uri] None [] Running).
Proof. intros H. unfold main, mongoose_connect. cbn [env]. rewrite H. reflexivity. Qed.

End StartupFacts.


(** C10.  The callback given to [mongoose.connect] declares no
    parameter: called with an error or without, it writes the line
    [Connected to database] and does nothing else.  The console of the
    process is therefore the same whether connection attempts failed or
    succeeded. *)
Theorem connect_callback_reports_success (environment file : gmap string string)
  (events : list Startup.Event) (err : option Error) (p : Startup.Process) :
  Startup.stdout (Startup.deliver (Startup.ConnectSettled err) p)
    = (Startup.stdout p ++ ["Connected to database"])%list /\
  Startup.deliver (Startup.ConnectSettled err) p
    = Startup.deliver (Startup.ConnectSettled None) p /\
  Startup.run environment file events = Startup.run environment file (forget <$> events).
Proof.
  repeat split.
  induction events as [|e events IH] using rev_ind; [reflexivity|].
  rewrite fmap_app. cbn [fmap list_fmap]. rewrite !run_snoc, IH. by destruct e.
Qed.

(** C8, as the code has it.  With a connection string in [MONGO_URI],
    so that the script reaches line 54: when [PORT] is absent from
    [process.env] or is the empty string, the server listens on 5000;
    when it is a decimal number from 1 to 65535, the server listens on
    that port; when it is a larger decimal number, [app.listen] throws
    and the server listens on nothing. *)
Theorem listens_on_PORT_or_5000 (environment file : gmap string string) (uri : string) :
  Dotenv.config environment file !! "MONGO_URI" = Some uri ->
  let p := Startup.main environment file in
  let value := Startup.env p !! "PORT" in
  (value = None \/ value = Some EmptyString ->
   Startup.listening p = Some (Startup.OnPort 5000) /\ Startup.state p = Startup.Running) /\
  (forall v n, value = Some v -> Startup.decimal v = Some n -> (1 <= n <= 65535)%N ->
     Startup.listening p = Some (Startup.OnPort n) /\ Startup.state p = Startup.Running) /\
  (forall v n, value = Some v -> Startup.decimal v = Some n -> (65535 < n)%N ->
     Startup.listening p = None /\ Startup.state p = Startup.Dead "ERR_SOCKET_BAD_PORT").
Proof.
  intros Huri p value. subst p value. rewrite env_main, (main_connected _ _ _ Huri).
  unfold Startup.PORT, Startup.app_listen, Startup.listen.
  split; [|split].
  - intros [-> | ->]; split; reflexivity.
  - intros v n -> Hv Hn. destruct v as [|a v]; [discriminate|]. rewrite Hv.
    destruct (N.ltb_spec 65535 n); [lia|]. destruct (N.eqb_spec n 0); [lia|]. by split.
  - intros v n -> Hv Hn. destruct v as [|a v]; [discriminate|]. rewrite Hv.
    destruct (N.ltb_spec 65535 n); [|lia]. by split.
Qed.

(** ** Preflights, rejected bodies, parsed bodies *)

(** X1.  A CORS preflight, that is any OPTIONS request, is answered by
    cors: status 204 without a body, any origin and the six methods
    allowed.  No later stage runs, so that the request is not logged by
    morgan, not counted by the limiter and never reaches a router: the
    state of the process is left as it was. *)
Theorem preflight_is_answered_by_cors {DB : Type} {codec : Codec} (helmetHeaders : list (string * string))
  (customersRouter analyticsRouter : Ctx -> DB -> DB * Outcome)
  (r : Request) (w : World DB) :
  Cors.isPreflight r = true ->
  let out := serve helmetHeaders customersRouter analyticsRouter r w in
  trace out = [(Helmet, Passed); (Cors, Responded)] /\
  statusCode (response out) = 204 /\
  payload (response out) = NoPayload /\
  getHeader "Access-Control-Allow-Origin" (response out) = Some "*" /\
  getHeader "Access-Control-Allow-Methods" (response out)
    = Some "GET,HEAD,PUT,PATCH,POST,DELETE" /\
  final out = w.
Proof.
  intros Hpre out. unfold out. clear out. rewrite serve_eq. unfold app.
  rewrite dispatch_stateless. unfold Helmet.helmet.
  rewrite dispatch_stateless. unfold Cors.cors. cbn [req withRes initial]. rewrite Hpre.
  cbn [trace response final visit finish res withRes logOnFinish].
  unfold Cors.allowMethods, Cors.allowOrigin.
  repeat split.
  all: unfold Cors.allowHeaders; repeat case_match; by read_header.
Qed.

(** A request that is not a preflight and does not reach the limiter was
    rejected by one of the body parsers, and the error handler answered. *)
Lemma serve_rejected {DB : Type} {codec : Codec} (helmetHeaders : list (string * string))
  (customersRouter analyticsRouter : Ctx -> DB -> DB * Outcome)
  (r : Request) (w : World DB) :
  Cors.isPreflight r = false ->
  reachesLimiter helmetHeaders r = false ->
  exists (e : Error) (c : Ctx) (parsers : list (Stage * Step)),
    (parsers = [(JsonParser, Failed)] \/
     parsers = [(JsonParser, Passed); (UrlencodedParser, Failed)]) /\
    serve helmetHeaders customersRouter analyticsRouter r w
    = mkResult (errorResponse (res c))
        (log (Access (ip r) (method r) (target r) 500) (log (Err (stack e)) w))
        ([(Helmet, Passed); (Cors, Passed); (Morgan, Passed)] ++ parsers
         ++ [(ErrorHandler, Responded)]).
Proof.
  intros Hpre Hstop.
  unfold reachesLimiter in Hstop. rewrite (upstream_after_morgan _ r Hpre) in Hstop.
  rewrite (serve_after_morgan _ _ _ r w Hpre). cbn [drop app].
  rewrite dispatch_stateless.
  pose proof (json_keeps (afterMorgan helmetHeaders r)) as Hj.
  pose proof (json_never_sends (afterMorgan helmetHeaders r)) as Hjs.
  destruct (BodyParser.json (afterMorgan helmetHeaders r)) as [c1|e c1|c1];
    cbn [andThen ctxOf] in *; [| |by destruct (Hjs c1)].
  - rewrite dispatch_stateless.
    pose proof (urlencoded_keeps c1) as Hf.
    pose proof (urlencoded_never_sends c1) as Hfs.
    destruct (BodyParser.urlencoded c1) as [c2|e c2|c2];
      cbn [ctxOf] in *; [discriminate| |by destruct (Hfs c2)].
    repeat (rewrite dispatch_skip_one by exact I). rewrite dispatch_error_layer.
    destruct Hj as (Hj1 & _ & _ & Hj4). destruct Hf as (Hf1 & _ & _ & Hf4).
    exists e, c2, [(JsonParser, Passed); (UrlencodedParser, Failed)].
    split; [by right|]. unfold visit, finish.
    cbn [trace response final res withRes logOnFinish req].
    rewrite Hf4, Hj4, Hf1, Hj1, errorResponse_status. reflexivity.
  - repeat (rewrite dispatch_skip_one by exact I). rewrite dispatch_error_layer.
    destruct Hj as (Hj1 & _ & _ & Hj4).
    exists e, c1, [(JsonParser, Failed)].
    split; [by left|]. unfold visit, finish.
    cbn [trace response final res withRes logOnFinish req].
    rewrite Hj4, Hj1, errorResponse_status. reflexivity.
Qed.

(** X2.  A request that is not a preflight and that a body parser
    rejects, for any of its reasons (a body that does not parse, an
    unsupported charset, a body over 100 kB, too many form fields), gets
    the generic 500 of the error handler, whatever status the parser gave
    its error.  The limiter and the routers do not run; the console gets
    the error and then morgan's line with status 500. *)
Theorem rejected_body_gets_generic_500 {DB : Type} {codec : Codec} (helmetHeaders : list (string * string))
  (customersRouter analyticsRouter : Ctx -> DB -> DB * Outcome)
  (r : Request) (w : World DB) :
  Cors.isPreflight r = false ->
  reachesLimiter helmetHeaders r = false ->
  let out := serve helmetHeaders customersRouter analyticsRouter r w in
  (trace out = [(Helmet, Passed); (Cors, Passed); (Morgan, Passed);
                (JsonParser, Failed); (ErrorHandler, Responded)] \/
   trace out = [(Helmet, Passed); (Cors, Passed); (Morgan, Passed); (JsonParser, Passed);
                (UrlencodedParser, Failed); (ErrorHandler, Responded)]) /\
  statusCode (response out) = 500 /\
  payload (response out) = Content errorText /\
  hits (final out) = hits w /\
  db (final out) = db w /\
  exists line,
    console (final out)
    = (console w ++ [Err line; Access (ip r) (method r) (target r) 500])%list.
Proof.
  intros Hpre Hstop out. unfold out. clear out.
  destruct (serve_rejected helmetHeaders customersRouter analyticsRouter r w Hpre Hstop)
    as (e & c & parsers & Hparsers & ->).
  cbn [trace response final]. rewrite errorResponse_status, errorResponse_payload.
  split; [destruct Hparsers as [-> | ->]; [by left | by right]|].
  repeat split. exists (stack e). cbn [console log]. by rewrite <- app_assoc.
Qed.

(** a media type is one thing only *)
Lemma typeis_exclusive (r : Request) (t1 t2 : string) :
  t1 <> t2 -> BodyParser.typeis r t1 = true -> BodyParser.typeis r t2 = false.
Proof.
  intros Hne. unfold BodyParser.typeis. destruct (BodyParser.hasBody r); [|done]. cbn [andb].
  destruct (get r "content-type") as [v|]; [|done].
  destruct (BodyParser.mediaType v) as [[t ps]|]; [|done].
  intros ->%String.eqb_eq. by apply String.eqb_neq.
Qed.

(** ** Mount points *)

Lemma prefix_lower_inv (a : ascii) (p path : string) :
  String.prefix (String a p) (toLowerCase path) = true ->
  exists b rest, path = String b rest /\ lowerChar b = a /\
                 String.prefix p (toLowerCase rest) = true.
Proof.
  destruct path as [|b rest]; [discriminate|]. cbn [toLowerCase mapChars String.prefix].
  destruct (ascii_dec a (lowerChar b)) as [->|]; [|discriminate].
  intros H. by exists b, rest.
Qed.

(** what the customers mount point takes from a path begins like it *)
Lemma customers_match_shape (path removed : string) :
  matchMount "/api/customers" path = Some removed ->
  exists a1 a2 a3 a4 a5 a6 rest,
    removed = String a1 (String a2 (String a3 (String a4 (String a5 (String a6 rest))))) /\
    lowerChar a1 = "/"%char /\ lowerChar a2 = "a"%char /\ lowerChar a3 = "p"%char /\
    lowerChar a4 = "i"%char /\ lowerChar a5 = "/"%char /\ lowerChar a6 = "c"%char.
Proof.
  unfold matchMount. cbn [String.eqb Ascii.eqb Bool.eqb].
  unfold startsWith. destruct (String.prefix _ _) eqn:Hp; [|discriminate].
  change (toLowerCase "/api/customers") with "/api/customers" in Hp.
  apply prefix_lower_inv in Hp as (a1 & p1 & -> & H1 & Hp).
  apply prefix_lower_inv in Hp as (a2 & p2 & -> & H2 & Hp).
  apply prefix_lower_inv in Hp as (a3 & p3 & -> & H3 & Hp).
  apply prefix_lower_inv in Hp as (a4 & p4 & -> & H4 & Hp).
  apply prefix_lower_inv in Hp as (a5 & p5 & -> & H5 & Hp).
  apply prefix_lower_inv in Hp as (a6 & p6 & -> & H6 & Hp).
  cbn [String.length slice substring].
  intros H. exists a1, a2, a3, a4, a5, a6.
  repeat case_match; try discriminate; injection H as <-; eexists; repeat split; done.
Qed.

(** A path that the customers mount point matches is not matched by the
    analytics one, whatever replaces the rest of the URL. *)
Lemma customers_excludes_analytics (path removed rest : string) :
  matchMount "/api/customers" path = Some removed ->
  matchMount "/api/analytics" (pathname (removed ++ rest)) = None.
Proof.
  intros H. apply customers_match_shape in H
    as (a1 & a2 & a3 & a4 & a5 & a6 & tl & -> & H1 & H2 & H3 & H4 & H5 & H6).
  rewrite !string_app_cons. unfold pathname. cbn [before].
  rewrite !lowerChar_not_question by (rewrite ?H1, ?H2, ?H3, ?H4, ?H5, ?H6; discriminate).
  unfold matchMount, startsWith. cbn [String.eqb Ascii.eqb Bool.eqb].
  cbn [toLowerCase mapChars]. rewrite H1, H2, H3, H4, H5, H6.
  reflexivity.
Qed.

(** ** The limiter and the routes *)

Section Downstream.
Context {DB : Type}.
Context {codec : Codec}.
Variable helmetHeaders : list (string * string).
Variables customersRouter analyticsRouter : Ctx -> DB -> DB * Outcome.

Local Abbreviation layers := (app helmetHeaders customersRouter analyticsRouter).
Local Abbreviation answer := (serve helmetHeaders customersRouter analyticsRouter).

(** the response of the error handler to error [e], as a result *)
Local Abbreviation failed e c w :=
  (visit ErrorHandler Responded
     (finish (withRes c (errorResponse (res c))) (log (Err (stack e)) w))).

Lemma limiter_passes_ctx (c : Ctx) (w : World DB) :
  hitNumber c w <= 100 ->
  exists c', limiter c w = (counted c w, Next c') /\
             req c' = req c /\ url c' = url c /\ logOnFinish c' = logOnFinish c /\
             body c' = body c.
Proof.
  intros Hn. unfold limiter, RateLimit.rateLimit, RateLimit.incr, counted, hitNumber in *.
  destruct (hits w !! ip (req c)) as [n|] eqn:E; simpl in *.
  - destruct (Nat.ltb_spec 100 (S n)); [lia|]. eexists; split; [reflexivity|]. done.
  - eexists; split; [reflexivity|]. done.
Qed.

Lemma limiter_refuses_ctx (c : Ctx) (w : World DB) :
  100 < hitNumber c w ->
  exists c', limiter c w = (counted c w, Sent c') /\
             req c' = req c /\ logOnFinish c' = logOnFinish c /\
             statusCode (res c') = 429 /\
             getHeader "Retry-After" (res c') = Some "900" /\
             getHeader "X-RateLimit-Limit" (res c') = Some "100" /\
             getHeader "X-RateLimit-Remaining" (res c') = Some "0".
Proof.
  intros Hn. unfold limiter, RateLimit.rateLimit, RateLimit.incr, counted, hitNumber in *.
  destruct (hits w !! ip (req c)) as [n|] eqn:E; simpl in *; [|lia].
  destruct (Nat.ltb_spec 100 (S n)); [|lia].
  eexists; split; [reflexivity|]. cbn [req logOnFinish res withRes withRateLimit].
  replace (99 - n) with 0 by lia.
  unfold sendText, defaultType. repeat split.
  all: repeat case_match; by read_header.
Qed.

(** The three layers after the limiter: no mount point matches; or one
    router runs, and it passes the request on, fails or answers.  The
    analytics router does not run after the customers router. *)
Lemma routes_cases (c : Ctx) (w : World DB) :
  let out := dispatch (drop 6 layers) None c w in
  out = finalhandler None c w \/
  exists s, isRouter s = true /\
    ((exists c' w', hits w' = hits w /\ console w' = console w /\
                    out = visit s Passed (finalhandler None c' w')) \/
     (exists e c' w', hits w' = hits w /\ console w' = console w /\
                      out = visit s Failed (failed e c' w')) \/
     (exists c' w', hits w' = hits w /\ console w' = console w /\
                    out = visit s Responded (finish c' w'))).
Proof.
  cbn [drop app dispatch mount handler name stateful].
  destruct (matchMount "/api/customers" (pathname (url c))) as [removed|] eqn:Hc.
  - right. exists CustomersRouter. split; [reflexivity|].
    destruct (enter removed c) as [c1 added].
    destruct (customersRouter c1 (db w)) as [d [c'|e c'|c']].
    + left. eexists _, (withDb w d). split; [reflexivity|]. split; [reflexivity|].
      f_equal.
      assert (Hurl : exists rest,
                 url (leave removed (baseUrl c) added c') = removed ++ rest).
      { destruct (customers_match_shape _ _ Hc) as (a1 & ? & ? & ? & ? & ? & ? & -> & _).
        cbn [leave url withUrl]. by eexists. }
      destruct Hurl as [rest ->].
      rewrite (customers_excludes_analytics _ _ rest Hc). reflexivity.
    + right. left. eexists e, _, (withDb w d). split; [reflexivity|]. split; [reflexivity|].
      f_equal.
      destruct (matchMount "/api/analytics" _); [destruct (enter _ _)|]; reflexivity.
    + right. right. eexists _, (withDb w d). by repeat split.
  - destruct (matchMount "/api/analytics" (pathname (url c))) as [removed|] eqn:Ha.
    + right. exists AnalyticsRouter. split; [reflexivity|].
      destruct (enter removed c) as [c1 added].
      destruct (analyticsRouter c1 (db w)) as [d [c'|e c'|c']].
      * left. eexists _, (withDb w d). by repeat split.
      * right. left. eexists e, _, (withDb w d). by repeat split.
      * right. right. eexists _, (withDb w d). by repeat split.
    + left. reflexivity.
Qed.

(** A request that reaches the limiter: the limiter refuses it, or passes
    it to the routes. *)
Lemma serve_limited (r : Request) (w : World DB) (c : Ctx) :
  upstream helmetHeaders r = Next c ->
  (100 < hitNumber c w /\
   exists c', req c' = r /\ logOnFinish c' = true /\
     statusCode (res c') = 429 /\
     getHeader "Retry-After" (res c') = Some "900" /\
     getHeader "X-RateLimit-Limit" (res c') = Some "100" /\
     getHeader "X-RateLimit-Remaining" (res c') = Some "0" /\
     answer r w = mkResult (res c')
                    (log (Access (ip r) (method r) (target r) 429) (counted c w))
                    (allPassed [Helmet; Cors; Morgan; JsonParser; UrlencodedParser]
                     ++ [(RateLimiter, Responded)])) \/
  (hitNumber c w <= 100 /\
   exists c', req c' = r /\ logOnFinish c' = true /\ url c' = target r /\
     answer r w =
     visit Helmet Passed (visit Cors Passed (visit Morgan Passed
       (visit JsonParser Passed (visit UrlencodedParser Passed
          (visit RateLimiter Passed
             (dispatch (drop 6 layers) None c' (counted c w)))))))).
Proof.
  intros Hu. destruct (upstream_ctx _ r c Hu) as (_ & Hreq & Hurl & Hlog & _).
  rewrite (serve_reaches _ _ _ r w c Hu). cbn [drop app]. rewrite dispatch_root.
  destruct (le_lt_dec (hitNumber c w) 100) as [Hle|Hlt].
  - right. split; [exact Hle|].
    destruct (limiter_passes_ctx c w Hle) as (c' & -> & H1 & H2 & H3 & _).
    exists c'. rewrite H1, H2, H3. by repeat split.
  - left. split; [exact Hlt|].
    destruct (limiter_refuses_ctx c w Hlt) as (c' & -> & H1 & H2 & H3 & H4 & H5 & H6).
    exists c'. rewrite H1, H2. repeat split; try done.
    unfold finish, visit. cbn [response final trace]. rewrite H2, Hlog, H1, Hreq, H3.
    reflexivity.
Qed.

End Downstream.

(** membership in a trace that is written out *)
Ltac scan H :=
  repeat match type of H with
         | _ ∈ _ :: _ => apply elem_of_cons in H as [H|H]; [try discriminate H|]
         | _ ∈ [] => by apply elem_of_nil in H
         end.

(** X4.  Handling a request changes the counter of no other client.  The
    counter of the request's own client grows by exactly one when the
    request reaches the limiter, also when the limiter refuses it, and
    stays as it was when the request is answered before the limiter. *)
Theorem only_the_clients_counter_changes {DB : Type}
  {codec : Codec} (helmetHeaders : list (string * string))
  (customersRouter analyticsRouter : Ctx -> DB -> DB * Outcome)
  (r : Request) (w : World DB) (client : string) :
  let after := hits (final (serve helmetHeaders customersRouter analyticsRouter r w)) in
  after !! client =
  if decide (client = ip r)
  then (if reachesLimiter helmetHeaders r
        then Some (S (default 0 (hits w !! client)))
        else hits w !! client)
  else hits w !! client.
Proof.
  intros after. unfold after. clear after. rewrite serve_hits.
  destruct (reachesLimiter helmetHeaders r).
  - case_decide as Hc.
    + subst client. apply lookup_insert_eq.
    + by rewrite lookup_insert_ne.
  - by case_decide.
Qed.

(** X5.  The refusal of the limiter tells the client when to come back:
    [Retry-After] is 900, the 15 minutes of the window in seconds, the
    limit announced is 100 and nothing remains of it. *)
Theorem refusal_announces_the_window {DB : Type} {codec : Codec} (helmetHeaders : list (string * string))
  (customersRouter analyticsRouter : Ctx -> DB -> DB * Outcome)
  (r : Request) (w : World DB) :
  reachesLimiter helmetHeaders r = true ->
  100 <= default 0 (hits w !! ip r) ->
  let out := serve helmetHeaders customersRouter analyticsRouter r w in
  statusCode (response out) = 429 /\
  getHeader "Retry-After" (response out) = Some "900" /\
  getHeader "X-RateLimit-Limit" (response out) = Some "100" /\
  getHeader "X-RateLimit-Remaining" (response out) = Some "0" /\
  (RateLimit.retryAfter limiterOptions * 1000 = RateLimit.windowMs limiterOptions)%Z.
Proof.
  intros Hr Hn out. unfold out. clear out. unfold reachesLimiter in Hr.
  destruct (upstream helmetHeaders r) as [c| |] eqn:Hu; try discriminate.
  destruct (upstream_ctx _ r c Hu) as (_ & Hreq & _).
  destruct (serve_limited _ customersRouter analyticsRouter r w c Hu)
    as [(_ & c' & _ & _ & H3 & H4 & H5 & H6 & ->) | (Hle & _)].
  - cbn [response]. by repeat split.
  - unfold hitNumber in Hle. rewrite Hreq in Hle. lia.
Qed.

(** X7.  At most one router runs for a request: the mount points exclude
    each other, also when the customers router has rewritten [req.url]
    before it passes the request on. *)
Theorem at_most_one_router_runs {DB : Type} {codec : Codec} (helmetHeaders : list (string * string))
  (customersRouter analyticsRouter : Ctx -> DB -> DB * Outcome)
  (r : Request) (w : World DB) :
  length (routersRun (trace (serve helmetHeaders customersRouter analyticsRouter r w))) <= 1.
Proof.
  destruct (reachesLimiter helmetHeaders r) eqn:Hr.
  - unfold reachesLimiter in Hr.
    destruct (upstream helmetHeaders r) as [c| |] eqn:Hu; try discriminate.
    destruct (serve_limited _ customersRouter analyticsRouter r w c Hu)
      as [(_ & c' & _ & _ & _ & _ & _ & _ & ->) | (_ & c' & _ & _ & _ & ->)].
    + cbn. lia.
    + cbn [trace visit routersRun List.filter isRouter fst].
      destruct (routes_cases helmetHeaders customersRouter analyticsRouter c' (counted c w))
        as [-> | (s & Hs & [(? & ? & _ & _ & ->) | [(? & ? & ? & _ & _ & ->) | (? & ? & _ & _ & ->)]])].
      * rewrite trace_finalhandler. cbn. lia.
      * cbn [trace visit List.filter fst]. rewrite Hs, trace_finalhandler. cbn. lia.
      * cbn [trace visit finish List.filter fst isRouter]. rewrite Hs. cbn. lia.
      * cbn [trace visit finish List.filter fst isRouter]. rewrite Hs. cbn. lia.
  - destruct (serve_stopped _ customersRouter analyticsRouter r w Hr) as (_ & _ & Hall).
    unfold routersRun.
    replace (List.filter _ _) with (@nil (Stage * Step)); [cbn; lia|].
    induction Hall as [|[s st] tr Hs _ IH]; [reflexivity|]. cbn [List.filter fst] in *.
    destruct s; try discriminate Hs; exact IH.
Qed.

(** X8.  A router that passes a request on, because it has no route for
    it, leaves it to Express's not-found page: the other router does not
    run, and the answer is 404. *)
Theorem declined_request_gets_404 {DB : Type} {codec : Codec} (helmetHeaders : list (string * string))
  (customersRouter analyticsRouter : Ctx -> DB -> DB * Outcome)
  (r : Request) (w : World DB) (s : Stage) :
  let out := serve helmetHeaders customersRouter analyticsRouter r w in
  isRouter s = true ->
  (s, Passed) ∈ trace out ->
  trace out = (allPassed middleware ++ [(s, Passed)])%list /\
  statusCode (response out) = 404 /\
  exists verb path, payload (response out) = NotFoundPage verb path.
Proof.
  intros out Hs Hin. subst out.
  destruct (reachesLimiter helmetHeaders r) eqn:Hr.
  - unfold reachesLimiter in Hr.
    destruct (upstream helmetHeaders r) as [c| |] eqn:Hu; try discriminate.
    destruct (serve_limited _ customersRouter analyticsRouter r w c Hu)
      as [(_ & c' & _ & _ & _ & _ & _ & _ & Heq) | (_ & c' & _ & _ & _ & Heq)];
      rewrite Heq in Hin |- *; clear Heq.
    + cbn in Hin. scan Hin; injection Hin as ->; discriminate Hs.
    + cbn [trace visit response] in *.
      destruct (routes_cases helmetHeaders customersRouter analyticsRouter c' (counted c w))
        as [Hd | (s' & Hs' & [(? & ? & _ & _ & Hd) | [(? & ? & ? & _ & _ & Hd) | (? & ? & _ & _ & Hd)]])];
        rewrite Hd in Hin |- *; clear Hd.
      * rewrite trace_finalhandler in Hin. cbn in Hin.
        scan Hin; injection Hin as ->; discriminate Hs.
      * cbn [trace visit response] in *. rewrite trace_finalhandler in *.
        assert (s = s') as <-.
        { cbn in Hin. scan Hin; injection Hin as Heq;
            first [exact Heq | subst s; discriminate Hs]. }
        split; [reflexivity|]. split; [reflexivity|]. by eexists _, _.
      * cbn in Hin. scan Hin; injection Hin as ->; discriminate Hs.
      * cbn in Hin. scan Hin; injection Hin as ->; discriminate Hs.
  - destruct (serve_stopped _ customersRouter analyticsRouter r w Hr) as (_ & _ & Hall).
    rewrite Forall_forall in Hall. specialize (Hall _ Hin). cbn in Hall.
    destruct s; discriminate.
Qed.

(** ** The answer to a request *)

(** X10.  A request that is not a preflight and that no router handles
    leaves one line of morgan on the console, with the client, the
    method, the URL as it was received and the status that was sent;
    before it, the stack of the error when a body parser failed, and
    nothing else. *)
Theorem unrouted_request_is_logged {DB : Type} {codec : Codec} (helmetHeaders : list (string * string))
  (customersRouter analyticsRouter : Ctx -> DB -> DB * Outcome)
  (r : Request) (w : World DB) :
  let out := serve helmetHeaders customersRouter analyticsRouter r w in
  Cors.isPreflight r = false ->
  routersRun (trace out) = [] ->
  accessLogged r w out.
Proof.
  intros out Hpre Hno. subst out. unfold accessLogged.
  destruct (reachesLimiter helmetHeaders r) eqn:Hr.
  - unfold reachesLimiter in Hr.
    destruct (upstream helmetHeaders r) as [c| |] eqn:Hu; try discriminate.
    destruct (serve_limited _ customersRouter analyticsRouter r w c Hu)
      as [(_ & c' & _ & _ & H3 & _ & _ & _ & Heq) | (_ & c' & Hreq & Hlog & _ & Heq)];
      rewrite Heq in Hno |- *; clear Heq.
    + exists []. cbn [final response console log counted withHits]. rewrite H3.
      split; [reflexivity|by left].
    + cbn [trace visit final response routersRun List.filter isRouter fst] in *.
      destruct (routes_cases helmetHeaders customersRouter analyticsRouter c' (counted c w))
        as [Hd | (s & Hs & [(? & ? & _ & _ & Hd) | [(? & ? & ? & _ & _ & Hd) | (? & ? & _ & _ & Hd)]])];
        rewrite Hd in Hno |- *; clear Hd.
      * exists []. unfold finalhandler, finish. cbn [final response res withRes logOnFinish req].
        rewrite Hlog, Hreq. split; [reflexivity|by left].
      * cbn [trace visit List.filter fst] in Hno. by rewrite Hs in Hno.
      * cbn [trace visit List.filter fst] in Hno. by rewrite Hs in Hno.
      * cbn [trace visit List.filter fst] in Hno. by rewrite Hs in Hno.
  - destruct (serve_rejected helmetHeaders customersRouter analyticsRouter r w Hpre Hr)
      as (e & c & parsers & _ & ->).
    exists [Err (stack e)]. cbn [final response console log]. rewrite errorResponse_status.
    split; [by rewrite <- app_assoc|right; by eexists].
Qed.

(** ** Any origin *)

Lemma allowsAnyOrigin_sendText (text : string) (r : Response) :
  allowsAnyOrigin r -> allowsAnyOrigin (sendText text r).
Proof.
  intros Hr. unfold sendText, defaultType, allowsAnyOrigin in *.
  repeat case_match; by read_header.
Qed.

Lemma allowsAnyOrigin_sendJson (v : JSON) (r : Response) :
  allowsAnyOrigin r -> allowsAnyOrigin (sendJson v r).
Proof.
  intros Hr. unfold sendJson, defaultType. apply allowsAnyOrigin_sendText.
  unfold allowsAnyOrigin in *. repeat case_match; by read_header.
Qed.

Lemma allowsAnyOrigin_page (code : nat) (p : Payload) (r : Response) :
  allowsAnyOrigin r -> allowsAnyOrigin (page code p r).
Proof. intros Hr. unfold page, allowsAnyOrigin in *. by read_header. Qed.

(** X11.  Every response lets any origin read it: cors puts
    [Access-Control-Allow-Origin: *] on the response before any later
    stage can answer, and the limiter, the error handler and the
    not-found page leave it there, as do the routers if they do not
    change that header themselves. *)
Theorem every_response_allows_any_origin {DB : Type}
  {codec : Codec} (helmetHeaders : list (string * string))
  (customersRouter analyticsRouter : Ctx -> DB -> DB * Outcome)
  (r : Request) (w : World DB) :
  keepsOrigin customersRouter ->
  keepsOrigin analyticsRouter ->
  allowsAnyOrigin (response (serve helmetHeaders customersRouter analyticsRouter r w)).
Proof.
  intros Hcust Hana. rewrite serve_eq. unfold app.
  rewrite dispatch_stateless. unfold Helmet.helmet. cbn [response visit].
  rewrite dispatch_stateless. unfold Cors.cors.
  destruct (Cors.isPreflight _).
  - cbn [response visit finish res withRes]. unfold allowsAnyOrigin, Cors.allowHeaders,
      Cors.allowMethods, Cors.allowOrigin. repeat case_match; by read_header.
  - cbn [response visit].
    apply (dispatch_response_invariant allowsAnyOrigin).
    + intros code p r0. apply allowsAnyOrigin_page.
    + repeat constructor; unfold keepsResponse; cbn [handler stateless stateful snd].
      * intros c _ Hc. exact Hc.
      * intros c _ Hc. by destruct (json_keeps c) as (_ & _ & -> & _).
      * intros c _ Hc. by destruct (urlencoded_keeps c) as (_ & _ & -> & _).
      * intros c w' Hc. unfold limiter, RateLimit.rateLimit.
        destruct (RateLimit.incr _ _) as [h n].
        case_match; cbn [snd ctxOf res withRes withRateLimit].
        -- apply allowsAnyOrigin_sendText. unfold allowsAnyOrigin in *. by read_header.
        -- unfold allowsAnyOrigin in *. by read_header.
      * intros c w' Hc. specialize (Hcust c (db w') Hc).
        destruct (customersRouter c (db w')) as [d o]. exact Hcust.
      * intros c w' Hc. specialize (Hana c (db w') Hc).
        destruct (analyticsRouter c (db w')) as [d o]. exact Hana.
      * intros e c w' Hc. cbn [errorHandler snd ctxOf res withRes].
        by apply allowsAnyOrigin_sendJson.
    + cbn [res withRes]. unfold allowsAnyOrigin, Cors.allowOrigin. by read_header.
Qed.

(** ** Which bodies are rejected *)

(** X12.  The requests the body parsers reject.  A request that is not
    a preflight stops before the limiter exactly in these cases.  It
    announces a JSON body, and the charset is not one of [utf-*], or the
    body cannot be read (its content coding is not supported, it is
    longer than 100 kb, iconv-lite lacks the charset, the compressed
    stream is corrupt), or its text is not a JSON object or array.  Or
    it announces a form, and the charset is not [utf-8], or the body
    cannot be read, or its text has 1000 ampersands or more, that is
    more than 1000 parameters.  Every other request reaches the limiter,
    whatever its body. *)
Theorem body_is_rejected_iff {codec : Codec} (helmetHeaders : list (string * string))
  (r : Request) :
  Cors.isPreflight r = false ->
  reachesLimiter helmetHeaders r = false <->
  (BodyParser.typeis r "application/json" = true /\
   (startsWith "utf-" (BodyParser.getCharset r) = false \/
    (exists e, BodyParser.read (BodyParser.getCharset r) r = inl e) \/
    (exists text, BodyParser.read (BodyParser.getCharset r) r = inr text /\
                  BodyParser.parseJson text = None))) \/
  (BodyParser.typeis r "application/x-www-form-urlencoded" = true /\
   (BodyParser.getCharset r <> "utf-8" \/
    (exists e, BodyParser.read (BodyParser.getCharset r) r = inl e) \/
    (exists text, BodyParser.read (BodyParser.getCharset r) r = inr text /\
                  1000 <= BodyParser.ampersands text))).
Proof.
  intros Hpre. unfold reachesLimiter. rewrite (upstream_after_morgan _ r Hpre).
  unfold BodyParser.json, BodyParser.ensureBody.
  cbn [afterMorgan bodyRead body req withLogOnFinish withRes initial].
  destruct (BodyParser.typeis r "application/json") eqn:Hj; cbn [negb].
  - rewrite (typeis_exclusive r "application/json" "application/x-www-form-urlencoded")
      by done.
    destruct (startsWith "utf-" (BodyParser.getCharset r)); cbn [negb andThen];
      [|split; [intros _; left; split; [done|by left] | done]].
    destruct (BodyParser.read (BodyParser.getCharset r) r) as [e|text]; cbn [andThen];
      [split; [intros _; left; split; [done|right; left; by eexists] | done]|].
    destruct (BodyParser.parseJson text) as [v|] eqn:Hp; cbn [andThen].
    + unfold BodyParser.urlencoded. cbn [bodyRead withBody].
      split; [done|].
      intros [(_ & [H|[[e H]|(t & [= <-] & H)]]) | (H & _)]; try discriminate.
      rewrite Hp in H. discriminate.
    + split; [intros _; left; split; [done|right; right; by eexists] | done].
  - cbn [andThen]. unfold BodyParser.urlencoded, BodyParser.ensureBody.
    cbn [afterMorgan bodyRead body req withLogOnFinish withRes withBody initial].
    destruct (BodyParser.typeis r "application/x-www-form-urlencoded"); cbn [negb].
    + destruct (String.eqb_spec (BodyParser.getCharset r) "utf-8") as [Hc|Hc]; cbn [negb];
        [|split; [intros _; right; split; [done|by left] | done]].
      destruct (BodyParser.read (BodyParser.getCharset r) r) as [e|text];
        [split; [intros _; right; split; [done|right; left; by eexists] | done]|].
      unfold BodyParser.parameterLimit.
      destruct (Nat.leb_spec 1000 (BodyParser.ampersands text)) as [Hn|Hn].
      * split; [intros _; right; split; [done|right; right; by eexists] | done].
      * split; [done|].
        intros [(H & _) | (_ & [H|[[e H]|(t & [= <-] & H)]])]; try discriminate; [done|lia].
    + split; [done|]. intros [(H & _) | (H & _)]; discriminate.
Qed.

(** ** Two windows *)

Lemma hitsInWindow_le {codec : Codec} configured k client (l : list (Z * Request)) :
  hitsInWindow configured k client l <= length l.
Proof. unfold hitsInWindow. apply List.filter_length_le. Qed.

Lemma chronological_bursts (lo t1 t2 : Z) (r : Request) (n m : nat) :
  (lo <= t1)%Z -> (t1 <= t2)%Z ->
  chronological lo (replicate n (t1, r) ++ replicate m (t2, r)).
Proof.
  intros H1 H2. revert lo H1. induction n as [|n IH]; intros lo H1; cbn.
  - assert (Hlo : (lo <= t2)%Z) by lia. clear H1. revert lo Hlo.
    induction m as [|m IHm]; intros lo Hlo; cbn; [done|]. split; [done|]. by apply IHm.
  - split; [done|]. by apply IH.
Qed.

Lemma run_length {DB : Type} {codec : Codec} (helmetHeaders : list (string * string))
  (customersRouter analyticsRouter : Ctx -> DB -> DB * Outcome)
  (arrivals : list (Z * Request)) (s : Server) :
  length (run helmetHeaders customersRouter analyticsRouter s arrivals) = length arrivals.
Proof.
  revert s. induction arrivals as [|[t r] rest IH]; intros s; [reflexivity|].
  cbn [run]. destruct (arrive _ _ _ t r s) as [s' out]. cbn [length]. by rewrite IH.
Qed.

(** X13.  The windows are fixed, they do not slide.  A client that
    sends its full quota of 100 requests at the end of one window and 100
    more at the start of the next is never refused: the limiter lets all
    200 pass, however close the two bursts are. *)
Theorem full_quota_on_each_side_of_a_boundary {DB : Type}
  {codec : Codec} (helmetHeaders : list (string * string))
  (customersRouter analyticsRouter : Ctx -> DB -> DB * Outcome) (d : DB)
  (r : Request) (t1 t2 : Z) :
  (0 <= t1)%Z ->
  (window t1 < window t2)%Z ->
  reachesLimiter helmetHeaders r = true ->
  let outs := run helmetHeaders customersRouter analyticsRouter (boot d) (twoBursts r t1 t2) in
  length outs = 200 /\
  Forall (fun out => (RateLimiter, Passed) ∈ trace out) outs.
Proof.
  intros H0 Hw Hr outs. subst outs.
  assert (Ht : (t1 <= t2)%Z).
  { destruct (Z.le_gt_cases t1 t2) as [H|H]; [exact H|].
    pose proof (window_mono t2 t1 ltac:(lia)). lia. }
  assert (Hlen : length (run helmetHeaders customersRouter analyticsRouter (boot d)
                           (twoBursts r t1 t2)) = 200).
  { rewrite run_length. unfold twoBursts. by rewrite length_app, !length_replicate. }
  split; [exact Hlen|].
  apply Forall_lookup_2. intros i out Hi.
  pose proof (lookup_lt_Some _ _ _ Hi) as Hlt. rewrite Hlen in Hlt.
  assert (Hup : upToDate helmetHeaders (boot d) [] 0).
  { repeat split; try done. }
  pose proof (chronological_bursts 0 t1 t2 r 100 100 H0 Ht) as Hchr.
  fold (twoBursts r t1 t2) in Hchr.
  destruct (decide (i < 100)) as [Hi1|Hi2].
  - assert (Ha : twoBursts r t1 t2 !! i = Some (t1, r)).
    { unfold twoBursts. rewrite lookup_app_l by (rewrite length_replicate; lia).
      by apply lookup_replicate_2. }
    destruct (run_verdicts helmetHeaders customersRouter analyticsRouter _ _ _ _
                Hup Hchr i t1 r Ha Hr) as (out' & Ho & Hpass & _).
    rewrite Hi in Ho. injection Ho as <-. apply Hpass. cbn [List.app].
    etrans; [apply hitsInWindow_le|]. rewrite length_take. lia.
  - assert (Ha : twoBursts r t1 t2 !! i = Some (t2, r)).
    { unfold twoBursts. rewrite lookup_app_r by (rewrite length_replicate; lia).
      apply lookup_replicate_2. rewrite length_replicate. lia. }
    destruct (run_verdicts helmetHeaders customersRouter analyticsRouter _ _ _ _
                Hup Hchr i t2 r Ha Hr) as (out' & Ho & Hpass & _).
    rewrite Hi in Ho. injection Ho as <-. apply Hpass. cbn [List.app].
    unfold twoBursts. rewrite take_app, hitsInWindow_app.
    rewrite (hitsInWindow_earlier _ _ _ (take (S i) (replicate 100 (t1, r))) t1);
      [|apply Forall_take, Forall_replicate; cbn; lia|exact Hw].
    etrans; [apply hitsInWindow_le|]. rewrite length_take, !length_replicate. lia.
Qed.

(** ** Start-up and the [.env] file *)

(** What a start does depends on the environment through [PORT] and
    [MONGO_URI] only. *)
Lemma run_same (e1 f1 e2 f2 : gmap string string) (events : list Startup.Event) :
  Dotenv.config e1 f1 !! "PORT" = Dotenv.config e2 f2 !! "PORT" ->
  Dotenv.config e1 f1 !! "MONGO_URI" = Dotenv.config e2 f2 !! "MONGO_URI" ->
  let p := Startup.run e1 f1 events in
  let q := Startup.run e2 f2 events in
  Startup.connects p = Startup.connects q /\
  Startup.listening p = Startup.listening q /\
  Startup.stdout p = Startup.stdout q /\
  Startup.state p = Startup.state q.
Proof.
  intros Hport Huri p q. subst p q.
  assert (HP : Startup.PORT (Dotenv.config e1 f1) = Startup.PORT (Dotenv.config e2 f2))
    by (unfold Startup.PORT; by rewrite Hport).
  induction events as [|e events IH] using rev_ind.
  - unfold Startup.run. cbn [fold_left].
    destruct (Dotenv.config e2 f2 !! "MONGO_URI") as [u|] eqn:H2.
    + rewrite (main_connected e1 f1 u Huri), (main_connected e2 f2 u H2), HP.
      unfold Startup.app_listen, Startup.listen, Startup.throw.
      repeat case_match; by repeat split.
    + unfold Startup.main, Startup.mongoose_connect. cbn [Startup.env].
      rewrite Huri, H2. by repeat split.
  - rewrite !run_snoc. destruct IH as (H1 & H2 & H3 & H4).
    unfold Startup.whenRunning. rewrite H4.
    destruct (Startup.state (Startup.run e2 f2 events)) eqn:Hs;
      [|repeat split; try done; by rewrite H4, Hs..].
    destruct (run_keeps e1 f1 events) as (He1 & _).
    destruct (run_keeps e2 f2 events) as (He2 & _).
    rewrite env_main in He1, He2.
    destruct e; cbn [Startup.deliver Startup.call0 Startup.onConnect Startup.onListen
                       Startup.console_log Startup.connects Startup.listening
                       Startup.stdout Startup.state];
      rewrite ?He1, ?He2, ?HP, H3; repeat split; try done; by rewrite H4, Hs.
Qed.

(** X15.  The [.env] file never overrides the environment of the
    process.  When the environment defines [PORT] and [MONGO_URI], be it
    as empty strings, the file changes nothing of what the process does:
    the connection string, the port and the console are those of a start
    without the file. *)
Theorem dotenv_never_overrides (environment file : gmap string string)
  (events : list Startup.Event) :
  is_Some (environment !! "PORT") ->
  is_Some (environment !! "MONGO_URI") ->
  let p := Startup.run environment file events in
  let q := Startup.run environment ∅ events in
  Startup.connects p = Startup.connects q /\
  Startup.listening p = Startup.listening q /\
  Startup.stdout p = Startup.stdout q.
Proof.
  intros [port Hport] [uri Huri] p q. subst p q.
  destruct (run_same environment file environment ∅ events) as (H1 & H2 & H3 & _).
  - unfold Dotenv.config. by rewrite !(lookup_union_Some_l _ _ _ _ Hport).
  - unfold Dotenv.config. by rewrite !(lookup_union_Some_l _ _ _ _ Huri).
  - by repeat split.
Qed.

(** ** Mount points *)

(** What a mount point removes is the start of the URL. *)
Lemma removed_is_prefix (mnt u removed : string) :
  matchMount mnt (pathname u) = Some removed -> exists rest, u = removed ++ rest.
Proof.
  assert (Hsub : forall k, exists rest, u = substring 0 k (pathname u) ++ rest).
  { intros k. destruct (before_split "?" u) as [q Hq]. fold (pathname u) in Hq.
    exists (slice k (pathname u) ++ q).
    by rewrite <- string_app_assoc, substring_slice. }
  unfold matchMount. intros H.
  destruct (String.eqb mnt "/"); [injection H as <-; by exists u|].
  destruct (startsWith _ _); [|discriminate].
  repeat case_match; try discriminate; injection H as <-; apply Hsub.
Qed.

(** X16.  Mounting is undone.  While a router mounted at a path runs,
    [req.url] is the URL without the part the mount point matched, and
    it starts with a slash; when the router calls [next()], the URL the
    later stages see is the one that was received. *)
Theorem mount_path_is_put_back (mnt removed : string) (c c' : Ctx) :
  matchMount mnt (pathname (url c)) = Some removed ->
  url c' = url (enter removed c).1 ->
  url (leave removed (baseUrl c) (enter removed c).2 c') = url c /\
  (removed <> EmptyString -> exists rest, url (enter removed c).1 = String "/" rest).
Proof.
  intros Hm Hc'. destruct (removed_is_prefix _ _ _ Hm) as [rest Hrest].
  unfold enter, leave in *. destruct removed as [|a removed]; [by split|].
  rewrite Hrest, slice_length_app in *.
  destruct rest as [|x rest].
  - cbn [fst snd url withUrl] in *. rewrite Hc'. split; [reflexivity|]. by eexists.
  - destruct (Ascii.eqb_spec x "/") as [->|Hx].
    + cbn [fst snd url withUrl] in *. rewrite Hc'. split; [reflexivity|]. by eexists.
    + assert (He : (match String x rest with
                    | String "/" _ => (withUrl c (String x rest)
                                         (baseUrl c ++ dropLastSlash (String a removed)), false)
                    | _ => (withUrl c (String "/" (String x rest))
                              (baseUrl c ++ dropLastSlash (String a removed)), true)
                    end)
                   = (withUrl c (String "/" (String x rest))
                        (baseUrl c ++ dropLastSlash (String a removed)), true)).
      { destruct x as [[] [] [] [] [] [] [] []]; try reflexivity. by destruct Hx. }
      rewrite He in *. cbn [fst snd url withUrl] in *. rewrite Hc'.
      split; [reflexivity|]. by eexists.
Qed.

(** ** [X-Powered-By] *)

Lemma hidesExpress_setAll (configured : list (string * string)) (r : Response) :
  withoutPoweredBy configured -> hidesExpress r -> hidesExpress (Helmet.setAll configured r).
Proof.
  unfold Helmet.setAll. intros Hall. revert r.
  induction Hall as [|nv rest Hnv _ IH]; intros r Hr; [exact Hr|].
  cbn [fold_left]. apply IH. unfold hidesExpress in *.
  rewrite getHeader_setHeader_ne; [exact Hr|]. intros H. apply Hnv. by rewrite <- H.
Qed.

(** X17.  No response names Express.  The [X-Powered-By] header that
    Express puts on every response is removed by helmet, the first stage,
    and no later stage of the server puts it back: not the preflight
    answer of cors, the refusal of the limiter, the error handler or the
    not-found page, nor the routers if they leave it out. *)
Theorem express_is_never_announced {DB : Type} {codec : Codec} (helmetHeaders : list (string * string))
  (customersRouter analyticsRouter : Ctx -> DB -> DB * Outcome)
  (r : Request) (w : World DB) :
  withoutPoweredBy helmetHeaders ->
  keepsHidden customersRouter ->
  keepsHidden analyticsRouter ->
  hidesExpress (response (serve helmetHeaders customersRouter analyticsRouter r w)).
Proof.
  intros Hset Hcust Hana. rewrite serve_eq. unfold app.
  rewrite dispatch_stateless. unfold Helmet.helmet. cbn [response visit].
  apply (dispatch_response_invariant hidesExpress).
  - intros code p r0 Hr. unfold page, hidesExpress in *. by read_header.
  - repeat constructor; unfold keepsResponse; cbn [handler stateless stateful snd].
    + intros c _ Hc. unfold Cors.cors, Cors.allowHeaders, Cors.allowMethods, Cors.allowOrigin.
      unfold hidesExpress in *.
      repeat case_match; cbn [ctxOf res withRes]; by read_header.
    + intros c _ Hc. exact Hc.
    + intros c _ Hc. by destruct (json_keeps c) as (_ & _ & -> & _).
    + intros c _ Hc. by destruct (urlencoded_keeps c) as (_ & _ & -> & _).
    + intros c w' Hc. unfold limiter, RateLimit.rateLimit.
      destruct (RateLimit.incr _ _) as [h n]. unfold hidesExpress, sendText, defaultType in *.
      repeat case_match; cbn [snd ctxOf res withRes withRateLimit]; by read_header.
    + intros c w' Hc. specialize (Hcust c (db w') Hc).
      destruct (customersRouter c (db w')) as [d o]. exact Hcust.
    + intros c w' Hc. specialize (Hana c (db w') Hc).
      destruct (analyticsRouter c (db w')) as [d o]. exact Hana.
    + intros e c w' Hc. cbn [errorHandler snd ctxOf res withRes].
      unfold hidesExpress, sendJson, sendText, defaultType in *.
      repeat case_match; by read_header.
  - cbn [res withRes]. apply hidesExpress_setAll; [exact Hset|].
    unfold hidesExpress, getHeader, removeHeader. cbn [resHeaders]. apply lookup_delete_eq.
Qed.

(** ** The quota headers *)

(** X18.  Every response to a request that reaches the limiter tells
    the client its quota: [X-RateLimit-Limit] is 100 and
    [X-RateLimit-Remaining] is what is left of it in the window after this
    request, 0 when the request is refused.  This holds of the refusal,
    of the not-found page, of the response of the error handler, and of
    the responses of the routers if they leave the two headers alone. *)
Theorem response_tells_the_quota {DB : Type} {codec : Codec} (helmetHeaders : list (string * string))
  (customersRouter analyticsRouter : Ctx -> DB -> DB * Outcome)
  (r : Request) (w : World DB) :
  reachesLimiter helmetHeaders r = true ->
  keepsQuota customersRouter ->
  keepsQuota analyticsRouter ->
  tellsQuota (100 - S (default 0 (hits w !! ip r)))
    (response (serve helmetHeaders customersRouter analyticsRouter r w)).
Proof.
  intros Hr Hcust Hana. unfold reachesLimiter in Hr.
  destruct (upstream helmetHeaders r) as [c| |] eqn:Hu; try discriminate. clear Hr.
  destruct (upstream_ctx _ r c Hu) as (_ & Hreq & _).
  rewrite (serve_reaches _ _ _ r w c Hu). cbn [drop app response visit].
  rewrite dispatch_root.
  unfold limiter at 1, RateLimit.rateLimit, RateLimit.incr. rewrite Hreq.
  set (n := match hits w !! ip r with Some n => S n | None => 1 end).
  assert (Hn : n = S (default 0 (hits w !! ip r))) by (subst n; by destruct (hits w !! ip r)).
  cbn [RateLimit.max limiterOptions remaining].
  rewrite <- Hn. clearbody n.
  assert (Hset : forall r0, tellsQuota (100 - n)
                   (setHeader "X-RateLimit-Remaining" (pretty (100 - n))
                      (setHeader "X-RateLimit-Limit" (pretty 100) r0))).
  { intros r0. split; by read_header. }
  destruct ((0 <? 100)%nat && (100 <? n)%nat); cbn [response visit finish res withRes].
  - destruct (Hset (res c)) as [H1 H2].
    unfold tellsQuota, sendText, defaultType. repeat case_match; by read_header.
  - apply (dispatch_response_invariant (tellsQuota (100 - n))).
    + intros code p r0 [H1 H2]. unfold tellsQuota, page. by read_header.
    + constructor; [|constructor; [|constructor; [|constructor]]];
        unfold keepsResponse; cbn [handler stateless stateful snd].
      * intros cx w' Hc. specialize (Hcust cx (db w') _ Hc).
        destruct (customersRouter cx (db w')) as [d o]. exact Hcust.
      * intros cx w' Hc. specialize (Hana cx (db w') _ Hc).
        destruct (analyticsRouter cx (db w')) as [d o]. exact Hana.
      * intros e cx w' [H1 H2]. cbn [errorHandler snd ctxOf res withRes].
        unfold tellsQuota, sendJson, sendText, defaultType.
        repeat case_match; by read_header.
    + cbn [res withRes]. apply Hset.
Qed.
(** * The sample deployment

    The statements are run on the sample requests, with the sample
    codec for zlib and iconv-lite. *)

#[local] Existing Instance sampleCodec.

(** ** The model on concrete inputs *)

Example check_stringify_errorBody :
  stringify errorBody = errorText /\ String.length errorText = 82.
Proof. split; reflexivity. Qed.

Example check_parse_accepts :
  parse (js " { 'a' : [1, -2.5e3, true, null, 'x\ny'], 'b' : { } } ")
  = Some (JObject [("a", JArray [JNumber "1"; JNumber "-2.5e3"; JBool true; JNull;
                                  JString (String "x" (String "010" "y"))]);
                   ("b", JObject [])]).
Proof. vm_compute. reflexivity. Qed.

Example check_parse_rejects :
  List.map parse ["{malformed"; "[1,]"; "01"; "{a:1}"; "[1 2]"; "tru"; " "]
  = [None; None; None; None; None; None; None].
Proof. vm_compute. reflexivity. Qed.

Example check_parseJson_strict :
  List.map BodyParser.parseJson [EmptyString; "12"; " [1]"]
  = [Some (JObject []); None; Some (JArray [JNumber "1"])].
Proof. vm_compute. reflexivity. Qed.

(** the error of a rejected body carries the status 400 *)
Example check_parse_failure_status :
  match BodyParser.json (initial postMalformed) with
  | Raise e _ => status e = Some 400 /\ kind e = "entity.parse.failed"
  | _ => False
  end.
Proof. vm_compute. split; reflexivity. Qed.

Example check_mediaType :
  List.map BodyParser.mediaType
    ["application/json"; " Application/JSON ; charset=UTF-8"; "application/json; charset"]
  = [Some ("application/json", []); Some ("application/json", [("charset", "UTF-8")]); None].
Proof. vm_compute. reflexivity. Qed.

Example check_queryparse :
  BodyParser.queryparse "name=Ada+L&&tag=a%26b&flag"
  = [("name", "Ada L"); ("tag", "a&b"); ("flag", EmptyString)].
Proof. vm_compute. reflexivity. Qed.

Example check_matchMount :
  List.map (matchMount "/api/customers")
    ["/api/customers"; "/api/customers/"; "/API/Customers/42"; "/api/customersX"; "/api/unknown"]
  = [Some "/api/customers"; Some "/api/customers/"; Some "/API/Customers"; None; None].
Proof. vm_compute. reflexivity. Qed.

(** a request to the customers router: all stages pass, the router
    answers, morgan writes its line, the client has one hit *)
Example check_customers :
  let out := sampleServe
               (mkRequest "GET" "/api/customers/42?full=1" ∅ EmptyString "203.0.113.7")
               freshWorld in
  trace out = (allPassed middleware ++ [(CustomersRouter, Responded)])%list /\
  statusCode (response out) = 200 /\
  payload (response out) = Content "[]" /\
  console (final out) = [Access "203.0.113.7" "GET" "/api/customers/42?full=1" 200] /\
  hits (final out) !! "203.0.113.7" = Some 1.
Proof. vm_compute. repeat split. Qed.

(** a preflight is answered by cors: nothing after it runs *)
Example check_preflight :
  let out := sampleServe
               (mkRequest "OPTIONS" "/api/customers" ∅ EmptyString "203.0.113.7")
               busyWorld in
  trace out = [(Helmet, Passed); (Cors, Responded)] /\
  statusCode (response out) = 204 /\
  hits (final out) = hits busyWorld.
Proof. vm_compute. repeat split. Qed.

(** the timer empties the store: the 101 requests of [sampleBurst] and
    one more a window later *)
Example check_next_window :
  (fun out => (statusCode (response out))) <$>
    (run sampleHeaders sampleCustomers sampleAnalytics (boot tt)
       (sampleBurst ++ [(960000%Z, getUnknown)])) !! 101
  = Some 404.
Proof. vm_compute. reflexivity. Qed.

Example check_startup :
  Startup.run {["PORT" := "8080"]} {["PORT" := "3000"; "MONGO_URI" := "mongodb://db/insight"]}
    [Startup.ListenBound; Startup.ConnectSettled None]
  = Startup.mkProcess
      (Dotenv.config {["PORT" := "8080"]}
         {["PORT" := "3000"; "MONGO_URI" := "mongodb://db/insight"]})
      ["mongodb://db/insight"]
      (Some (Startup.OnPort 8080))
      ["Server is running on port 8080"; "Connected to database"]
      Startup.Running.
Proof. vm_compute. reflexivity. Qed.

(** without a connection string the script ends at line 33 *)
Example check_startup_without_uri :
  Startup.run {["PORT" := "8080"]} ∅ [Startup.ListenBound]
  = Startup.mkProcess {["PORT" := "8080"]} [] None [] (Startup.Dead "MongooseError").
Proof. vm_compute. reflexivity. Qed.

(** a body with a content coding that is not supported, and a body
    that starts with a byte order mark *)
Example check_content_coding :
  match BodyParser.json
          (initial (mkRequest "POST" "/api/customers"
                      (<["content-type" := "application/json"]>
                         (<["content-length" := "2"]>
                            (<["content-encoding" := "bogus"]> ∅)))
                      "{}" "203.0.113.7")) with
  | Raise e _ => status e = Some 415 /\ kind e = "encoding.unsupported"
  | _ => False
  end.
Proof. vm_compute. split; reflexivity. Qed.

Example check_byte_order_mark :
  match BodyParser.json
          (initial (mkRequest "POST" "/api/customers"
                      (<["content-type" := "application/json"]>
                         (<["content-length" := "5"]> ∅))
                      (byteOrderMark ++ "{}") "203.0.113.7")) with
  | Next c => body c = ParsedJson (JObject [])
  | _ => False
  end.
Proof. vm_compute. reflexivity. Qed.

(** ** The sample deployment meets the provisos *)

Lemma sampleHeaders_distinctNames : distinctNames sampleHeaders.
Proof. unfold distinctNames. compute_done. Qed.

Lemma sampleHeaders_securityOnly : securityOnly sampleHeaders.
Proof. repeat constructor; compute_done. Qed.

Lemma sampleCustomers_keepsHeaders : keepsHeaders sampleHeaders sampleCustomers.
Proof.
  intros c d Hc. cbn [sampleCustomers snd ctxOf res withRes].
  by apply carries_sendJson; [exact sampleHeaders_securityOnly|].
Qed.

Lemma sampleAnalytics_keepsHeaders : keepsHeaders sampleHeaders sampleAnalytics.
Proof. intros c d Hc. exact Hc. Qed.

Lemma sampleBurst_chronological : chronological 0 sampleBurst.
Proof.
  assert (H : forall n from, (from <= 60000)%Z ->
                             chronological from (replicate n (60000%Z, getUnknown))).
  { induction n as [|n IH]; intros from Hfrom; [exact I|]. split; [exact Hfrom|].
    apply IH. reflexivity. }
  apply H. lia.
Qed.

(** ** C1 *)

(** The request of the scenario, [Content-Type: application/json] with
    the body [{malformed], is answered with status 500. *)
Lemma malformed_json_is_answered_500 :
  BodyParser.typeis postMalformed "application/json" = true /\
  parse (entity postMalformed) = None /\
  statusCode (response (sampleServe postMalformed freshWorld)) = 500 /\
  ~ isClientError (statusCode (response (sampleServe postMalformed freshWorld))).
Proof.
  assert (H : statusCode (response (sampleServe postMalformed freshWorld)) = 500)
    by (vm_compute; reflexivity).
  repeat split; try (vm_compute; reflexivity).
  rewrite H. unfold isClientError. lia.
Qed.

Lemma malformed_json_gets_generic_500_witness :
  Cors.isPreflight postMalformed = false /\
  BodyParser.typeis postMalformed "application/json" = true /\
  BodyParser.read (BodyParser.getCharset postMalformed) postMalformed = inr "{malformed" /\
  "{malformed" <> EmptyString /\
  parse "{malformed" = None /\
  trace (serve sampleHeaders sampleCustomers sampleAnalytics postMalformed freshWorld)
  = [(Helmet, Passed); (Cors, Passed); (Morgan, Passed);
     (JsonParser, Failed); (ErrorHandler, Responded)].
Proof.
  assert (H1 : Cors.isPreflight postMalformed = false) by (vm_compute; reflexivity).
  assert (H2 : BodyParser.typeis postMalformed "application/json" = true)
    by (vm_compute; reflexivity).
  assert (H3 : BodyParser.read (BodyParser.getCharset postMalformed) postMalformed
               = inr "{malformed") by (vm_compute; reflexivity).
  assert (H4 : "{malformed" <> EmptyString) by discriminate.
  assert (H5 : parse "{malformed" = None) by (vm_compute; reflexivity).
  split; [exact H1|]. split; [exact H2|]. split; [exact H3|]. split; [exact H4|].
  split; [exact H5|].
  exact (proj1 (malformed_json_gets_generic_500 sampleHeaders sampleCustomers
                  sampleAnalytics postMalformed freshWorld "{malformed" H1 H2 H3 H4 H5)).
Defined.

(** ** C2 *)

Lemma failure_gets_generic_500_witness :
  (AnalyticsRouter, Failed)
    ∈ trace (serve sampleHeaders sampleCustomers sampleAnalytics getAnalytics freshWorld) /\
  statusCode (response (serve sampleHeaders sampleCustomers sampleAnalytics
                          getAnalytics freshWorld)) = 500 /\
  payload (response (serve sampleHeaders sampleCustomers sampleAnalytics
                       getAnalytics freshWorld)) = Content errorText.
Proof.
  assert (H : (AnalyticsRouter, Failed)
                ∈ trace (serve sampleHeaders sampleCustomers sampleAnalytics
                           getAnalytics freshWorld)).
  { replace (trace (serve sampleHeaders sampleCustomers sampleAnalytics
                      getAnalytics freshWorld))
      with (allPassed middleware ++ [(AnalyticsRouter, Failed); (ErrorHandler, Responded)])%list
      by (vm_compute; reflexivity).
    apply elem_of_app. right. apply list_elem_of_here. }
  split; [exact H|].
  destruct (failure_gets_generic_500 sampleHeaders sampleCustomers sampleAnalytics
              getAnalytics freshWorld (ex_intro _ AnalyticsRouter H)) as (Hs & Hp & _).
  split; [exact Hs | exact Hp].
Defined.

(** ** C3 *)

(** A hundred preflights and then a GET, all of one client and at the
    same moment: the first request is answered by cors and is not passed
    downstream, and the 101st request of the client in the window is not
    refused. *)
Lemma preflights_are_not_counted :
  let arrivals := (replicate 100 (60000%Z, optionsCustomers) ++ [(60000%Z, getUnknown)])%list in
  let answers := run sampleHeaders sampleCustomers sampleAnalytics (boot tt) arrivals in
  Forall (fun a => ip a.2 = "203.0.113.7" /\ window a.1 = 0%Z) arrivals /\
  length arrivals = 101 /\
  trace <$> answers !! 0 = Some [(Helmet, Passed); (Cors, Responded)] /\
  (fun out => statusCode (response out)) <$> answers !! 100 = Some 404.
Proof.
  split; [|split; [reflexivity|split; vm_compute; reflexivity]].
  apply Forall_app. split; [apply Forall_replicate|repeat constructor]; by split.
Qed.

(** The 101st of 101 requests of one client within a window. *)
Lemma limiter_fixed_window_witness :
  chronological 0 sampleBurst /\
  sampleBurst !! 100 = Some (60000%Z, getUnknown) /\
  reachesLimiter sampleHeaders getUnknown = true /\
  exists out,
    run sampleHeaders sampleCustomers sampleAnalytics (boot tt) sampleBurst !! 100
      = Some out /\
    statusCode (response out) = 429 /\
    payload (response out) =
      Content "Too many requests from this IP, please try again later.".
Proof.
  assert (H2 : sampleBurst !! 100 = Some (60000%Z, getUnknown)) by reflexivity.
  assert (H3 : reachesLimiter sampleHeaders getUnknown = true) by (vm_compute; reflexivity).
  split; [exact sampleBurst_chronological|]. split; [exact H2|]. split; [exact H3|].
  destruct (limiter_fixed_window sampleHeaders sampleCustomers sampleAnalytics tt
              sampleBurst 100 60000%Z getUnknown sampleBurst_chronological H2 H3)
    as (out & Ho & _ & _ & _ & Hrefuse).
  exists out. split; [exact Ho|].
  assert (Hn : 100 < hitsInWindow sampleHeaders (window 60000) (ip getUnknown)
                       (take 101 sampleBurst)).
  { replace (hitsInWindow sampleHeaders (window 60000) (ip getUnknown)
               (take 101 sampleBurst)) with 101 by (vm_compute; reflexivity).
    lia. }
  destruct (Hrefuse Hn) as (_ & Hs & _ & Hp). split; [exact Hs | exact Hp].
Defined.

(** ** C4 *)

(** C4, at the failing input.  The connection string is configured and
    the one attempt that is made fails with [MongoNetworkError]: the
    callback writes [Connected to database], the console holds no other
    line, and the process is the one a successful attempt leaves.  The
    failure is not logged. *)
Lemma connection_failure_is_not_logged :
  let environment : gmap string string := {["MONGO_URI" := "mongodb://db/insight"]} in
  let failed := Startup.run environment ∅ [Startup.ConnectSettled (Some sampleError)] in
  Startup.connects failed = ["mongodb://db/insight"] /\
  Startup.state failed = Startup.Running /\
  Startup.stdout failed = ["Connected to database"] /\
  failed = Startup.run environment ∅ [Startup.ConnectSettled None].
Proof. vm_compute. repeat split. Qed.

(** ** C5 *)



(** ** C6 *)

(** A preflight: helmet, then cors, which answers; the sequence ends
    there, and this is the answer of the server. *)
Example check_sequence_preflight :
  match inSequence (declaredMiddleware sampleHeaders) (initial optionsCustomers) busyWorld with
  | (steps, w', Sent c') =>
      steps = [(Helmet, Passed); (Cors, Responded)] /\
      sampleServe optionsCustomers busyWorld = precededBy steps (finish c' w')
  | _ => False
  end.
Proof. vm_compute. split; reflexivity. Qed.

(** ** C7 *)

(** [GET /api/unknown] from a client that has used its quota: the path
    matches no route, and the answer is the limiter's 429, not a 404. *)
Lemma unmatched_path_can_get_429 :
  noRouteMatches getUnknown /\
  statusCode (response (sampleServe getUnknown busyWorld)) = 429 /\
  statusCode (response (sampleServe getUnknown busyWorld)) <> 404.
Proof.
  assert (H : statusCode (response (sampleServe getUnknown busyWorld)) = 429)
    by (vm_compute; reflexivity).
  split; [split; reflexivity|]. split; [exact H|]. rewrite H. discriminate.
Qed.

Lemma unmatched_path_gets_404_witness :
  plainTarget (target getUnknown) = true /\
  noRouteMatches getUnknown /\
  reachesLimiter sampleHeaders getUnknown = true /\
  default 0 (hits freshWorld !! ip getUnknown) < 100 /\
  statusCode (response (serve sampleHeaders sampleCustomers sampleAnalytics
                          getUnknown freshWorld)) = 404.
Proof.
  assert (H0 : plainTarget (target getUnknown) = true) by (vm_compute; reflexivity).
  assert (H1 : noRouteMatches getUnknown) by (split; reflexivity).
  assert (H2 : reachesLimiter sampleHeaders getUnknown = true) by (vm_compute; reflexivity).
  assert (H3 : default 0 (hits freshWorld !! ip getUnknown) < 100).
  { replace (default 0 (hits freshWorld !! ip getUnknown)) with 0 by (vm_compute; reflexivity).
    lia. }
  split; [exact H0|]. split; [exact H1|]. split; [exact H2|]. split; [exact H3|].
  exact (proj1 (unmatched_path_gets_404 sampleHeaders sampleCustomers sampleAnalytics
                  getUnknown freshWorld H0 H1 H2 H3)).
Defined.

(** ** C8 *)

(** With the connection string configured: [PORT] set to the empty
    string, the server listens on 5000, not on the value of the variable;
    [PORT] set to 99999, [app.listen] throws and the server listens on
    nothing. *)
Lemma empty_PORT_listens_on_5000 :
  Startup.env (Startup.main sampleEnvironment ∅) !! "PORT" = Some EmptyString /\
  Startup.listening (Startup.main sampleEnvironment ∅) = Some (Startup.OnPort 5000) /\
  Startup.listening (Startup.main (<["PORT" := "99999"]> sampleEnvironment) ∅) = None /\
  Startup.state (Startup.main (<["PORT" := "99999"]> sampleEnvironment) ∅)
    = Startup.Dead "ERR_SOCKET_BAD_PORT".
Proof. vm_compute. repeat split. Qed.

Lemma listens_on_PORT_or_5000_witness :
  Dotenv.config (<["PORT" := "8080"]> sampleEnvironment) sampleFile !! "MONGO_URI"
    = Some "mongodb://db/insight" /\
  Startup.env (Startup.main (<["PORT" := "8080"]> sampleEnvironment) sampleFile) !! "PORT"
    = Some "8080" /\
  Startup.decimal "8080" = Some 8080%N /\
  (1 <= 8080 <= 65535)%N /\
  Startup.listening (Startup.main (<["PORT" := "8080"]> sampleEnvironment) sampleFile)
    = Some (Startup.OnPort 8080).
Proof.
  assert (H1 : Dotenv.config (<["PORT" := "8080"]> sampleEnvironment) sampleFile !! "MONGO_URI"
               = Some "mongodb://db/insight") by (vm_compute; reflexivity).
  assert (H2 : Startup.env (Startup.main (<["PORT" := "8080"]> sampleEnvironment) sampleFile)
                 !! "PORT" = Some "8080") by (vm_compute; reflexivity).
  assert (H3 : Startup.decimal "8080" = Some 8080%N) by (vm_compute; reflexivity).
  assert (H4 : (1 <= 8080 <= 65535)%N) by lia.
  split; [exact H1|]. split; [exact H2|]. split; [exact H3|]. split; [exact H4|].
  exact (proj1 (proj1 (proj2 (listens_on_PORT_or_5000
                                (<["PORT" := "8080"]> sampleEnvironment) sampleFile
                                "mongodb://db/insight" H1)) "8080" 8080%N H2 H3 H4)).
Defined.

(** ** C9 *)



(** ** The further properties *)

Lemma sampleCustomers_keepsOrigin : keepsOrigin sampleCustomers.
Proof. intros c d Hc. cbn. by apply allowsAnyOrigin_sendJson. Qed.

Lemma sampleAnalytics_keepsOrigin : keepsOrigin sampleAnalytics.
Proof. intros c d Hc. exact Hc. Qed.

Lemma sampleHeaders_withoutPoweredBy : withoutPoweredBy sampleHeaders.
Proof. repeat constructor; names_differ. Qed.

Lemma sampleCustomers_keepsHidden : keepsHidden sampleCustomers.
Proof.
  intros c d Hc. cbn [sampleCustomers snd ctxOf res withRes].
  unfold hidesExpress, sendJson, sendText, defaultType in *.
  repeat case_match; by read_header.
Qed.

Lemma sampleAnalytics_keepsHidden : keepsHidden sampleAnalytics.
Proof. intros c d Hc. exact Hc. Qed.

Lemma sampleCustomers_keepsQuota : keepsQuota sampleCustomers.
Proof.
  intros c d n [H1 H2]. cbn [sampleCustomers snd ctxOf res withRes].
  unfold tellsQuota, sendJson, sendText, defaultType.
  repeat case_match; by read_header.
Qed.

Lemma sampleAnalytics_keepsQuota : keepsQuota sampleAnalytics.
Proof. intros c d n Hc. exact Hc. Qed.

(** [OPTIONS /api/customers] from a client that has used its quota is
    answered 204. *)
Lemma preflight_is_answered_by_cors_witness :
  Cors.isPreflight optionsCustomers = true /\
  statusCode (response (sampleServe optionsCustomers busyWorld)) = 204.
Proof.
  assert (H : Cors.isPreflight optionsCustomers = true) by (vm_compute; reflexivity).
  split; [exact H|].
  exact (proj1 (proj2 (preflight_is_answered_by_cors sampleHeaders sampleCustomers
                         sampleAnalytics optionsCustomers busyWorld H))).
Defined.

Lemma rejected_body_gets_generic_500_witness :
  Cors.isPreflight postMalformed = false /\
  reachesLimiter sampleHeaders postMalformed = false /\
  payload (response (sampleServe postMalformed freshWorld)) = Content errorText.
Proof.
  assert (H1 : Cors.isPreflight postMalformed = false) by (vm_compute; reflexivity).
  assert (H2 : reachesLimiter sampleHeaders postMalformed = false) by (vm_compute; reflexivity).
  split; [exact H1|]. split; [exact H2|].
  exact (proj1 (proj2 (proj2 (rejected_body_gets_generic_500 sampleHeaders sampleCustomers
                                sampleAnalytics postMalformed freshWorld H1 H2)))).
Defined.

Lemma refusal_announces_the_window_witness :
  reachesLimiter sampleHeaders getUnknown = true /\
  100 <= default 0 (hits busyWorld !! ip getUnknown) /\
  getHeader "Retry-After" (response (sampleServe getUnknown busyWorld)) = Some "900".
Proof.
  assert (H1 : reachesLimiter sampleHeaders getUnknown = true) by (vm_compute; reflexivity).
  assert (H2 : 100 <= default 0 (hits busyWorld !! ip getUnknown)).
  { replace (default 0 (hits busyWorld !! ip getUnknown)) with 100 by (vm_compute; reflexivity).
    lia. }
  split; [exact H1|]. split; [exact H2|].
  exact (proj1 (proj2 (refusal_announces_the_window sampleHeaders sampleCustomers
                         sampleAnalytics getUnknown busyWorld H1 H2))).
Defined.

(** [GET /api/customers/42?full=1] with a customers router that has no
    route for it. *)
Lemma declined_request_gets_404_witness :
  isRouter CustomersRouter = true /\
  (CustomersRouter, Passed)
    ∈ trace (serve sampleHeaders decliningCustomers sampleAnalytics getCustomers freshWorld) /\
  statusCode (response (serve sampleHeaders decliningCustomers sampleAnalytics
                          getCustomers freshWorld)) = 404.
Proof.
  assert (H2 : (CustomersRouter, Passed)
                 ∈ trace (serve sampleHeaders decliningCustomers sampleAnalytics
                            getCustomers freshWorld)).
  { replace (trace (serve sampleHeaders decliningCustomers sampleAnalytics
                      getCustomers freshWorld))
      with (allPassed middleware ++ [(CustomersRouter, Passed)])%list
      by (vm_compute; reflexivity).
    apply elem_of_app. right. apply list_elem_of_here. }
  split; [reflexivity|]. split; [exact H2|].
  exact (proj1 (proj2 (declined_request_gets_404 sampleHeaders decliningCustomers
                         sampleAnalytics getCustomers freshWorld CustomersRouter
                         eq_refl H2))).
Defined.

Lemma every_response_allows_any_origin_witness :
  keepsOrigin sampleCustomers /\
  keepsOrigin sampleAnalytics /\
  allowsAnyOrigin (response (sampleServe getAnalytics freshWorld)).
Proof.
  split; [exact sampleCustomers_keepsOrigin|]. split; [exact sampleAnalytics_keepsOrigin|].
  exact (every_response_allows_any_origin sampleHeaders sampleCustomers sampleAnalytics
           getAnalytics freshWorld sampleCustomers_keepsOrigin sampleAnalytics_keepsOrigin).
Defined.

Lemma unrouted_request_is_logged_witness :
  Cors.isPreflight getUnknown = false /\
  routersRun (trace (sampleServe getUnknown freshWorld)) = [] /\
  accessLogged getUnknown freshWorld (sampleServe getUnknown freshWorld).
Proof.
  assert (H1 : Cors.isPreflight getUnknown = false) by (vm_compute; reflexivity).
  assert (H2 : routersRun (trace (serve sampleHeaders sampleCustomers sampleAnalytics
                                    getUnknown freshWorld)) = [])
    by (vm_compute; reflexivity).
  split; [exact H1|]. split; [exact H2|].
  exact (unrouted_request_is_logged sampleHeaders sampleCustomers sampleAnalytics
           getUnknown freshWorld H1 H2).
Defined.

(** A malformed JSON body is one of the rejected bodies. *)
Lemma body_is_rejected_iff_witness :
  Cors.isPreflight postMalformed = false /\
  reachesLimiter sampleHeaders postMalformed = false.
Proof.
  assert (H : Cors.isPreflight postMalformed = false) by (vm_compute; reflexivity).
  split; [exact H|].
  apply (proj2 (body_is_rejected_iff sampleHeaders postMalformed H)).
  left. split; [vm_compute; reflexivity|]. right. right.
  exists "{malformed". split; vm_compute; reflexivity.
Defined.

(** 100 requests in the last millisecond of the first window and 100 in
    the first millisecond of the second. *)
Lemma full_quota_on_each_side_of_a_boundary_witness :
  (0 <= 899999)%Z /\
  (window 899999 < window 900000)%Z /\
  reachesLimiter sampleHeaders getUnknown = true /\
  Forall (fun out => (RateLimiter, Passed) ∈ trace out)
    (run sampleHeaders sampleCustomers sampleAnalytics (boot tt)
       (twoBursts getUnknown 899999 900000)).
Proof.
  assert (H1 : (0 <= 899999)%Z) by lia.
  assert (H2 : (window 899999 < window 900000)%Z) by (vm_compute; reflexivity).
  assert (H3 : reachesLimiter sampleHeaders getUnknown = true) by (vm_compute; reflexivity).
  split; [exact H1|]. split; [exact H2|]. split; [exact H3|].
  exact (proj2 (full_quota_on_each_side_of_a_boundary sampleHeaders sampleCustomers
                  sampleAnalytics tt getUnknown 899999 900000 H1 H2 H3)).
Defined.

(** [PORT] is empty in the environment: the 8080 of the file is not
    used, the server listens on 5000. *)
Lemma dotenv_never_overrides_witness :
  is_Some (sampleEnvironment !! "PORT") /\
  is_Some (sampleEnvironment !! "MONGO_URI") /\
  Startup.listening (Startup.run sampleEnvironment sampleFile [Startup.ListenBound])
  = Startup.listening (Startup.run sampleEnvironment ∅ [Startup.ListenBound]).
Proof.
  assert (H1 : is_Some (sampleEnvironment !! "PORT"))
    by (exists EmptyString; vm_compute; reflexivity).
  assert (H2 : is_Some (sampleEnvironment !! "MONGO_URI"))
    by (exists "mongodb://db/insight"; vm_compute; reflexivity).
  split; [exact H1|]. split; [exact H2|].
  exact (proj1 (proj2 (dotenv_never_overrides sampleEnvironment sampleFile
                         [Startup.ListenBound] H1 H2))).
Defined.

Lemma mount_path_is_put_back_witness :
  matchMount "/api/customers" (pathname (url (initial getCustomers)))
  = Some "/api/customers" /\
  url (leave "/api/customers" (baseUrl (initial getCustomers))
         (enter "/api/customers" (initial getCustomers)).2
         (enter "/api/customers" (initial getCustomers)).1)
  = url (initial getCustomers).
Proof.
  assert (H : matchMount "/api/customers" (pathname (url (initial getCustomers)))
              = Some "/api/customers") by (vm_compute; reflexivity).
  split; [exact H|].
  exact (proj1 (mount_path_is_put_back "/api/customers" "/api/customers"
                  (initial getCustomers)
                  (enter "/api/customers" (initial getCustomers)).1 H eq_refl)).
Defined.

Lemma express_is_never_announced_witness :
  withoutPoweredBy sampleHeaders /\
  keepsHidden sampleCustomers /\
  keepsHidden sampleAnalytics /\
  hidesExpress (response (sampleServe getAnalytics freshWorld)).
Proof.
  split; [exact sampleHeaders_withoutPoweredBy|].
  split; [exact sampleCustomers_keepsHidden|]. split; [exact sampleAnalytics_keepsHidden|].
  exact (express_is_never_announced sampleHeaders sampleCustomers sampleAnalytics
           getAnalytics freshWorld sampleHeaders_withoutPoweredBy
           sampleCustomers_keepsHidden sampleAnalytics_keepsHidden).
Defined.

(** The first request of a client: 99 are left. *)
Lemma response_tells_the_quota_witness :
  reachesLimiter sampleHeaders getUnknown = true /\
  keepsQuota sampleCustomers /\
  keepsQuota sampleAnalytics /\
  tellsQuota 99 (response (sampleServe getUnknown freshWorld)).
Proof.
  assert (H : reachesLimiter sampleHeaders getUnknown = true) by (vm_compute; reflexivity).
  split; [exact H|].
  split; [exact sampleCustomers_keepsQuota|]. split; [exact sampleAnalytics_keepsQuota|].
  exact (response_tells_the_quota sampleHeaders sampleCustomers sampleAnalytics
           getUnknown freshWorld H sampleCustomers_keepsQuota sampleAnalytics_keepsQuota).
Defined.
